(** * Fritter: users, freets and upvotes over a document store

    A shallow embedding of the server side of the Fritter application
    (the user and upvote collections, the upvote middleware, the freet and
    upvote routers) together with the properties of its specification.

    Documents live in three collections keyed by their [_id]; every
    collection method is a computation over that store which either
    returns a value or throws (a rejected promise), keeping the writes
    made before the throw. *)

From Stdlib Require Import ZArith Ascii String.
From stdpp Require Import gmap strings list fin_maps.

Local Open Scope string_scope.
Local Open Scope list_scope.
Local Open Scope Z_scope.
#[local] Set Warnings "-register-all".

(** ** The JavaScript built-ins the code relies on *)

Module Js.

(** [Array.prototype.indexOf]: position of the first element strictly
    equal to [x], or [-1]. *)
Fixpoint indexOf_from (x : string) (l : list string) (i : Z) : Z :=
  match l with
  | [] => -1
  | y :: l' => if String.eqb y x then i else indexOf_from x l' (i + 1)
  end.

Definition indexOf (l : list string) (x : string) : Z := indexOf_from x l 0.

(** [Array.prototype.includes]. *)
Fixpoint includes (l : list string) (x : string) : bool :=
  match l with
  | [] => false
  | y :: l' => String.eqb y x || includes l' x
  end.

(** [Array.prototype.splice(start, deleteCount)] without inserted items:
    a negative [start] counts from the end, and both arguments are
    clamped to the array. The array after the call is returned. *)
Definition splice {A : Type} (start deleteCount : Z) (l : list A) : list A :=
  let len := Z.of_nat (length l) in
  let actualStart :=
    if start <? 0 then Z.max (len + start) 0 else Z.min start len in
  let actualDeleteCount := Z.min (Z.max deleteCount 0) (len - actualStart) in
  take (Z.to_nat actualStart) l
    ++ drop (Z.to_nat (actualStart + actualDeleteCount)) l.

(** [Array.prototype.push] of one element. *)
Definition push {A : Type} (l : list A) (x : A) : list A := l ++ [x].

(** Truthiness of a possibly undefined string: [undefined] and the empty
    string are falsy. *)
Definition truthy (o : option string) : bool :=
  match o with
  | Some s => negb (String.eqb s "")
  | None => false
  end.

(** White space removed by [String.prototype.trim] (the ASCII part of
    it: tab, line feed, vertical tab, form feed, carriage return and
    space). *)
Definition is_space (c : ascii) : bool :=
  let n := nat_of_ascii c in
  ((9 <=? n)%nat && (n <=? 13)%nat) || (n =? 32)%nat.

Fixpoint trimStart (s : string) : string :=
  match s with
  | String c s' => if is_space c then trimStart s' else s
  | EmptyString => EmptyString
  end.

Fixpoint trimEnd (s : string) : string :=
  match s with
  | String c s' =>
      match trimEnd s' with
      | EmptyString => if is_space c then EmptyString else String c EmptyString
      | t => String c t
      end
  | EmptyString => EmptyString
  end.

Definition trim (s : string) : string := trimEnd (trimStart s).

End Js.

(** ** Data model *)

(** Identifiers are handled by the code in their string form. The
    collection methods are given for the strings that the driver can cast
    to an ObjectId; what the cast does to the others is in [WithCast]. *)
Abbreviation ObjectId := string.

(** The calendar fields of a [Date] that the code reads
    ([getFullYear], [getMonth], [getDate]) and its instant. *)
Record Date := mkDate {
  getFullYear : Z;
  getMonth : Z;
  getDate : Z;
  getTime : Z
}.

(** [User] of [server/user/model.ts]; the [_id] is the key of the
    collection. *)
Record User := mkUser {
  username : string;
  password : string;
  dateJoined : Date;
  birthday : Date;
  underage : bool;
  upvotedFreets : list string
}.

(** [Upvote] of the upvote model. *)
Record Upvote := mkUpvote {
  up_freetId : ObjectId;
  up_authorId : ObjectId;
  up_dateCreated : Date
}.

(** Modelled from the spec: the freet model file is not part of the
    sources at hand. A freet has an author reference, a text content,
    creation and modification timestamps, a self-flagged marker and the
    list of flag reasons supplied at creation. *)
Record Freet := mkFreet {
  fr_authorId : ObjectId;
  fr_content : string;
  fr_dateCreated : Date;
  fr_dateModified : Date;
  fr_selfFlagged : bool;
  fr_flags : list string
}.

(** The document store: one collection per model. *)
Record Store := mkStore {
  users : gmap string User;
  freets : gmap string Freet;
  upvotes : gmap string Upvote
}.

Definition set_users (f : gmap string User -> gmap string User) (s : Store) : Store :=
  mkStore (f (users s)) (freets s) (upvotes s).
Definition set_freets (f : gmap string Freet -> gmap string Freet) (s : Store) : Store :=
  mkStore (users s) (f (freets s)) (upvotes s).
Definition set_upvotes (f : gmap string Upvote -> gmap string Upvote) (s : Store) : Store :=
  mkStore (users s) (freets s) (f (upvotes s)).

(** ** Computations over the store *)

(** An awaited call either returns or throws; the store keeps the writes
    done before a throw. *)
Inductive Outcome (A : Type) : Type :=
| Returned (a : A)
| Threw.
Arguments Returned {A} a.
Arguments Threw {A}.

Definition M (A : Type) : Type := Store -> Outcome A * Store.

Definition ret {A : Type} (a : A) : M A := fun s => (Returned a, s).
Definition throw {A : Type} : M A := fun s => (Threw, s).
Definition bind {A B : Type} (m : M A) (k : A -> M B) : M B :=
  fun s => match m s with
           | (Returned a, s') => k a s'
           | (Threw, s') => (Threw, s')
           end.
Definition gets {A : Type} (f : Store -> A) : M A := fun s => (Returned (f s), s).
Definition modify (f : Store -> Store) : M unit := fun s => (Returned tt, f s).

(** Property access on the result of a [findOne]: reading a field of
    [null] throws a [TypeError]. *)
Definition deref {A : Type} (o : option A) : M A :=
  match o with
  | Some a => ret a
  | None => throw
  end.

Notation "'await' x <- m ; k" := (bind m (fun x => k))
  (at level 10, x name, m at level 100, k at level 200).
Notation "'await_' m ; k" := (bind m (fun _ => k))
  (at level 10, m at level 100, k at level 200).

(** What Mongoose's [Model.deleteOne] and [Model.deleteMany] resolve to:
    always an object, whatever the number of documents removed. *)
Record DeleteResult := mkDeleteResult {
  acknowledged : bool;
  deletedCount : nat
}.

(** [v !== null] for a value that is [null] or an object. *)
Definition strict_neq_null {A : Type} (v : option A) : bool :=
  match v with
  | Some _ => true
  | None => false
  end.

Definition Model_deleteOne {A : Type} (id : string) (c : gmap string A)
  : DeleteResult * gmap string A :=
  (mkDeleteResult true (if c !! id is Some _ then 1%nat else 0%nat), delete id c).

Definition Model_deleteMany {A : Type} (P : A -> bool) (c : gmap string A)
  : DeleteResult * gmap string A :=
  (mkDeleteResult true (size (filter (fun kv => P kv.2 = true) c)),
   filter (fun kv => P kv.2 = false) c).

(** ** The runtime outside the repository

    Three library calls are left abstract: the date formatter of the
    response builders, the regular-expression match of the lookup by user
    name and the format check of identifiers. *)
Class Runtime := {
  (** [moment(date).format('MMMM Do YYYY, h:mm:ss a')] *)
  formatDate : Date -> string;
  (** [new RegExp(`^${pattern}$`, 'i')] tested against [subject] *)
  regexTest : forall (pattern subject : string), bool;
  (** [Types.ObjectId.isValid] on a string *)
  objectIdIsValid : string -> bool
}.

(** ** [UserCollection] (server/user/collection.ts) *)

Module UserCollection.

(** [today] is the clock read by [new Date()] inside the function. *)
Definition calculateAge (today birthday : Date) : Z :=
  let age := getFullYear today - getFullYear birthday in
  let month := getMonth today - getMonth birthday in
  if (month <? 0) || ((month =? 0) && (getDate today <? getDate birthday))
  then age - 1
  else age.

(** [oid] is the identifier the store gives the new document, [now] and
    [today] are the two clock reads. The extra [selfFlagged] property
    handed to the constructor is not part of the schema and is dropped.
    The method is given for a name and a password that are not empty, the
    ones the [required] check of the schema lets [save] store. *)
Definition addOne (username password : string) (birthday : Date)
    (oid : ObjectId) (now today : Date) : M (ObjectId * User) :=
  let dateJoined := now in
  let age := calculateAge today birthday in
  let underage := age <? 18 in
  let upvotedFreets := [] in
  let user := mkUser username password dateJoined birthday underage upvotedFreets in
  await_ modify (set_users (insert oid user));
  ret (oid, user).

Definition findOneByUserId (userId : ObjectId) (s : Store) : option User :=
  users s !! userId.

(** [findOne] with a pattern: the first stored user whose name matches. *)
Definition findOneByUsername `{Runtime} (name : string) (s : Store)
  : option (ObjectId * User) :=
  head (filter (fun kv => regexTest (Js.trim name) (username kv.2) = true)
          (map_to_list (users s))).

(** [findOne] with a pattern for the name and the password itself; as
    in [findOneByUsername], [regexTest] is the match of a pattern that
    compiles. *)
Definition findOneByUsernameAndPassword `{Runtime} (name pw : string) (s : Store)
  : option (ObjectId * User) :=
  head (filter (fun kv => regexTest (Js.trim name) (username kv.2) = true
                          ∧ password kv.2 = pw)
          (map_to_list (users s))).

(** [userDetails]: each field may be absent. *)
Record UserDetails := mkUserDetails {
  ud_password : option string;
  ud_username : option string
}.

Definition updateOne (userId : ObjectId) (userDetails : UserDetails) : M User :=
  await found <- gets (findOneByUserId userId);
  await user <- deref found;
  let user :=
    if Js.truthy (ud_password userDetails)
    then mkUser (username user) (default "" (ud_password userDetails))
           (dateJoined user) (birthday user) (underage user) (upvotedFreets user)
    else user in
  let user :=
    if Js.truthy (ud_username userDetails)
    then mkUser (default "" (ud_username userDetails)) (password user)
           (dateJoined user) (birthday user) (underage user) (upvotedFreets user)
    else user in
  await_ modify (set_users (insert userId user));
  ret user.

Definition UserModel_deleteOne (userId : ObjectId) : M (option DeleteResult) :=
  fun s =>
    let (r, c) := Model_deleteOne userId (users s) in
    (Returned (Some r), set_users (fun _ => c) s).

Definition deleteOne (userId : ObjectId) : M bool :=
  await user <- UserModel_deleteOne userId;
  ret (strict_neq_null user).

End UserCollection.

(** ** [UpvoteCollection] (server/upvote/collection.ts) *)

(** An upvote document as the queries return it after
    [populate('authorId')]: the author is the referenced user, or [null]
    when no such user is stored. *)
Record UpvoteDoc := mkUpvoteDoc {
  doc_id : ObjectId;
  doc_upvote : Upvote;
  doc_author : option User
}.

Module UpvoteCollection.

Definition populate (s : Store) (kv : ObjectId * Upvote) : UpvoteDoc :=
  mkUpvoteDoc kv.1 kv.2 (UserCollection.findOneByUserId (up_authorId kv.2) s).

(** [oid] is the identifier of the new document and [date] the clock
    read by [new Date()]. *)
Definition addOne (freetId authorId : ObjectId) (oid : ObjectId) (date : Date)
  : M UpvoteDoc :=
  let upvote := mkUpvote freetId authorId date in
  await found <- gets (UserCollection.findOneByUserId authorId);
  await author <- deref found;
  let author :=
    mkUser (username author) (password author) (dateJoined author)
      (birthday author) (underage author)
      (Js.push (upvotedFreets author) freetId) in
  await_ modify (set_users (insert authorId author));
  await_ modify (set_upvotes (insert oid upvote));
  gets (fun s => populate s (oid, upvote)).

Definition findOne (upvoteId : ObjectId) (s : Store) : option UpvoteDoc :=
  (fun u => populate s (upvoteId, u)) <$> upvotes s !! upvoteId.

(** The sort key [dateModified] is not a field of an upvote, so the
    documents come in the order of the store. *)
Definition findAll (s : Store) : list UpvoteDoc :=
  populate s <$> map_to_list (upvotes s).

Definition findAllByUsername `{Runtime} (name : string) : M (list UpvoteDoc) :=
  await found <- gets (UserCollection.findOneByUsername name);
  await author <- deref found;
  gets (fun s =>
    populate s <$>
      filter (fun kv => up_authorId kv.2 = author.1) (map_to_list (upvotes s))).

Definition UpvoteModel_deleteOne (upvoteId : ObjectId) : M (option DeleteResult) :=
  fun s =>
    let (r, c) := Model_deleteOne upvoteId (upvotes s) in
    (Returned (Some r), set_upvotes (fun _ => c) s).

Definition UpvoteModel_deleteMany (P : Upvote -> bool) : M unit :=
  modify (set_upvotes (fun c => (Model_deleteMany P c).2)).

Definition deleteOne (upvoteId authorId freetId : ObjectId) : M bool :=
  await found <- gets (UserCollection.findOneByUserId authorId);
  await author <- deref found;
  let author :=
    mkUser (username author) (password author) (dateJoined author)
      (birthday author) (underage author)
      (Js.splice (Js.indexOf (upvotedFreets author) freetId) 1 (upvotedFreets author)) in
  await_ modify (set_users (insert authorId author));
  await upvote <- UpvoteModel_deleteOne upvoteId;
  ret (strict_neq_null upvote).

Definition deleteManyByAuthorId (authorId : ObjectId) : M unit :=
  await found <- gets (UserCollection.findOneByUserId authorId);
  await_ (if found is Some author
          then modify (set_users (insert authorId
                 (mkUser (username author) (password author) (dateJoined author)
                    (birthday author) (underage author) [])))
          else ret tt);
  UpvoteModel_deleteMany (fun u => String.eqb (up_authorId u) authorId).

Definition deleteManyByFreetId (freetId authorId : ObjectId) : M unit :=
  await found <- gets (UserCollection.findOneByUserId authorId);
  await author <- deref found;
  let author :=
    mkUser (username author) (password author) (dateJoined author)
      (birthday author) (underage author)
      (Js.splice (Js.indexOf (upvotedFreets author) freetId) 1 (upvotedFreets author)) in
  await_ modify (set_users (insert authorId author));
  UpvoteModel_deleteMany (fun u => String.eqb (up_freetId u) freetId).

End UpvoteCollection.

(** ** Requests, responses and middleware chains *)

(** JSON values sent by [res.json]. *)
Inductive JSON : Type :=
| JNull
| JBool (b : bool)
| JStr (s : string)
| JArr (items : list JSON)
| JObj (fields : list (string * JSON)).

Record Response := mkResponse {
  status : Z;
  body : JSON
}.

(** The parts of an Express request the handlers read; an absent field is
    [undefined]. The body lists the fields of the parsed object in the
    order in which a [for ... in] loop visits them. *)
Record Request := mkRequest {
  session_userId : option string;
  params_freetId : option string;
  params_upvoteId : option string;
  query_author : option string;
  query_freetId : option string;
  req_body : list (string * string)
}.

(** A handler calls [next()], sends a response, or returns having done
    neither. *)
Inductive Step : Type :=
| Next
| Respond (r : Response)
| Stall.

Definition Middleware : Type := Request -> M Step.

(** The handlers of one route, run in order until one of them responds;
    [None] when the request is left unanswered. *)
Fixpoint run_chain (chain : list Middleware) (req : Request) : M (option Response) :=
  match chain with
  | [] => ret None
  | h :: chain' =>
      await st <- h req;
      match st with
      | Next => run_chain chain' req
      | Respond r => ret (Some r)
      | Stall => ret None
      end
  end.

Definition respond (code : Z) (payload : JSON) : M Step :=
  ret (Respond (mkResponse code payload)).

(** Property read [req.body[key]]. *)
Fixpoint body_get (o : list (string * string)) (key : string) : option string :=
  match o with
  | [] => None
  | (k, v) :: o' => if String.eqb k key then Some v else body_get o' key
  end.

(** Interpolation of a possibly undefined string in a template literal. *)
Definition interpolate (o : option string) : string := default "undefined" o.

(** [Array.prototype.map] with a callback that may throw. *)
Fixpoint mapM {A B : Type} (f : A -> option B) (l : list A) : M (list B) :=
  match l with
  | [] => ret []
  | x :: l' =>
      await y <- deref (f x);
      await ys <- mapM f l';
      ret (y :: ys)
  end.

(** ** Upvote response builder (server/upvote/util.ts) *)

Module UpvoteUtil.

(** Destructuring [username] out of a [null] author throws. *)
Definition constructUpvoteResponse `{Runtime} (upvote : UpvoteDoc) : option JSON :=
  author ← doc_author upvote;
  Some (JObj [("_id", JStr (doc_id upvote));
              ("freetId", JStr (up_freetId (doc_upvote upvote)));
              ("dateCreated", JStr (formatDate (up_dateCreated (doc_upvote upvote))));
              ("author", JStr (username author))]).

End UpvoteUtil.

(** ** Upvote middleware (server/upvote/middleware.ts) *)

Module UpvoteValidator.

(** [Types.ObjectId.isValid] rejects [undefined]; an identifier of the
    wrong format is not looked up. *)
Definition isUpvoteExists `{Runtime} : Middleware := fun req =>
  let validFormat :=
    if params_upvoteId req is Some upvoteId then objectIdIsValid upvoteId else false in
  await upvote <- gets (fun s =>
    if validFormat
    then upvoteId ← params_upvoteId req; UpvoteCollection.findOne upvoteId s
    else None);
  if upvote is Some _
  then ret Next
  else respond 404
         (JObj [("error",
            JObj [("upvoteNotFound",
              JStr ("Upvote with upvote ID " +:+ interpolate (params_upvoteId req)
                      +:+ " does not exist."))])]).

Definition isFreetUpvotedbyUser : Middleware := fun req =>
  await found <- gets (fun s =>
    userId ← session_userId req; UserCollection.findOneByUserId userId s);
  await author <- deref found;
  await freetId <- deref (params_freetId req);
  if Js.includes (upvotedFreets author) freetId
  then respond 409
         (JObj [("error",
            JObj [("upvoteAlreadyExists", JStr "User has already upvoted this Freet.")])])
  else ret Next.

Definition isValidUpvoteModifier : Middleware := fun req =>
  await found <- gets (fun s =>
    upvoteId ← params_upvoteId req; UpvoteCollection.findOne upvoteId s);
  await upvote <- deref found;
  await _author <- deref (doc_author upvote);
  let userId := up_authorId (doc_upvote upvote) in
  if bool_decide (session_userId req ≠ Some userId)
  then respond 400 (JObj [("error", JStr "Cannot modify other users' upvotes.")])
  else ret Next.

End UpvoteValidator.

(** ** The freet collection, formatter and guards

    The files [server/freet/collection.ts], [server/freet/util.ts],
    [server/freet/middleware.ts] and [server/user/middleware.ts] are
    called by the routers below but are not among the sources at hand. *)

Module FreetCollection.

(** Modelled from the spec: [FreetCollection.addOne] is missing. A freet
    is created by a single insert, with its author, its content and the
    flag reasons supplied at creation; the spec leaves open how the
    self-flagged marker is derived, here a freet is self-flagged when at
    least one flag reason was supplied. *)
Definition addOne (authorId : ObjectId) (content : string) (flags : list string)
    (oid : ObjectId) (date : Date) : M (ObjectId * Freet) :=
  let freet := mkFreet authorId content date date (negb (bool_decide (flags = []))) flags in
  await_ modify (set_freets (insert oid freet));
  ret (oid, freet).

(** Modelled from the spec: [FreetCollection.findOne] is missing; it
    fetches a single freet by identifier. *)
Definition findOne (freetId : ObjectId) (s : Store) : option (ObjectId * Freet) :=
  (fun f => (freetId, f)) <$> freets s !! freetId.

(** Modelled from the spec: [FreetCollection.findAll] is missing; all
    freets are returned. *)
Definition findAll (s : Store) : list (ObjectId * Freet) :=
  map_to_list (freets s).

(** Modelled from the spec: [FreetCollection.findAllUnflagged] is
    missing; only freets with no self-flag are returned. *)
Definition findAllUnflagged (s : Store) : list (ObjectId * Freet) :=
  filter (fun kv => fr_selfFlagged kv.2 = false) (map_to_list (freets s)).

(** Modelled from the spec: [FreetCollection.findAllByUsername] is
    missing; it lists the freets of the author with that user name. *)
Definition findAllByUsername `{Runtime} (name : string) : M (list (ObjectId * Freet)) :=
  await found <- gets (UserCollection.findOneByUsername name);
  await author <- deref found;
  gets (fun s =>
    filter (fun kv => fr_authorId kv.2 = author.1) (map_to_list (freets s))).

(** Modelled from the spec: [FreetCollection.deleteOne] is missing; it
    removes the freet record. *)
Definition deleteOne (freetId : ObjectId) : M bool :=
  await_ modify (set_freets (delete freetId));
  ret true.

End FreetCollection.

Module FreetUtil.

(** Modelled from the spec: the freet formatter is missing. Identifiers
    are stringified, the author reference is resolved to the user name
    and dates are rendered as formatted strings; the content is shown in
    full whatever the flag. *)
Definition freetResponse `{Runtime} (s : Store) (doc : ObjectId * Freet) : JSON :=
  JObj [("_id", JStr doc.1);
        ("author",
          if UserCollection.findOneByUserId (fr_authorId doc.2) s is Some u
          then JStr (username u) else JNull);
        ("content", JStr (fr_content doc.2));
        ("dateCreated", JStr (formatDate (fr_dateCreated doc.2)));
        ("dateModified", JStr (formatDate (fr_dateModified doc.2)))].

Definition constructFreetResponse `{Runtime} := freetResponse.
Definition constructRawFreetResponse `{Runtime} := freetResponse.

End FreetUtil.

Module UserValidator.

(** Modelled from the spec: [isUserLoggedIn] is missing; a request with
    no authenticated user is refused with 403. *)
Definition isUserLoggedIn : Middleware := fun req =>
  if Js.truthy (session_userId req)
  then ret Next
  else respond 403 (JObj [("error", JStr "You must be logged in to complete this action.")]).

(** Modelled from the spec: [isUserAdult] is missing. Fetching a freet
    requires the requester not to be underage if the freet is
    self-flagged: for a self-flagged freet a requester who is not a stored
    user with a false underage flag is refused with 403, and for a freet
    with no self-flag every request passes. *)
Definition isUserAdult : Middleware := fun req =>
  await freet <- gets (fun s =>
    freetId ← params_freetId req; FreetCollection.findOne freetId s);
  await found <- gets (fun s =>
    userId ← session_userId req; UserCollection.findOneByUserId userId s);
  if (if freet is Some doc then fr_selfFlagged doc.2 else false)
  then if found is Some user
       then if underage user
            then respond 403 (JObj [("error", JStr "You must be an adult to view this freet.")])
            else ret Next
       else respond 403 (JObj [("error", JStr "You must be an adult to view this freet.")])
  else ret Next.

(** Modelled from the spec: [isAuthorExists] is missing; an empty author
    query is refused with 400 and an unknown user with 404. *)
Definition isAuthorExists `{Runtime} : Middleware := fun req =>
  if Js.truthy (query_author req)
  then
    await found <- gets (UserCollection.findOneByUsername (interpolate (query_author req)));
    if found is Some _
    then ret Next
    else respond 404
           (JObj [("error",
              JStr ("A user with username " +:+ interpolate (query_author req)
                      +:+ " does not exist."))])
  else respond 400 (JObj [("error", JStr "Provided author username must be nonempty.")]).

End UserValidator.

Module FreetValidator.

(** Modelled from the spec: [isFreetExists] is missing; an identifier
    that names no stored freet is refused with 404. *)
Definition isFreetExists : Middleware := fun req =>
  await found <- gets (fun s =>
    freetId ← params_freetId req; FreetCollection.findOne freetId s);
  if found is Some _
  then ret Next
  else respond 404
         (JObj [("error",
            JObj [("freetNotFound",
              JStr ("Freet with freet ID " +:+ interpolate (params_freetId req)
                      +:+ " does not exist."))])]).

(** Modelled from the spec: [isValidFreetContent] is missing; the
    content must have a length in [1,280] after trimming: 400 when it is
    empty or blank, 413 when it is longer than 280 characters. *)
Definition isValidFreetContent : Middleware := fun req =>
  await content <- deref (body_get (req_body req) "content");
  let trimmed := Js.trim content in
  if bool_decide (trimmed = "")
  then respond 400
         (JObj [("error", JStr "Freet content must be at least one character long.")])
  else if (280 <? Z.of_nat (String.length trimmed))
  then respond 413
         (JObj [("error", JStr "Freet content must be no more than 280 characters.")])
  else ret Next.

(** Modelled from the spec: [isValidFreetModifier] is missing; a
    requester who is not the author of the freet is refused with 403. *)
Definition isValidFreetModifier : Middleware := fun req =>
  await found <- gets (fun s =>
    freetId ← params_freetId req; FreetCollection.findOne freetId s);
  await freet <- deref found;
  if bool_decide (session_userId req ≠ Some (fr_authorId freet.2))
  then respond 403 (JObj [("error", JStr "Cannot modify other users' freets.")])
  else ret Next.

End FreetValidator.

(** ** Freet router (server/freet/router.ts) *)

Module FreetRouter.
Import UserValidator FreetValidator FreetUtil.

Section Routes.
Context `{Runtime}.

(** First handler of [GET /api/freets]. [underage] starts as [null],
    which is falsy. *)
Definition get_all_handler : Middleware := fun req =>
  if query_author req is Some _ then ret Next
  else
    await underage <-
      (if Js.truthy (session_userId req)
       then
         await found <- gets (fun s =>
           userId ← session_userId req; UserCollection.findOneByUserId userId s);
         await user <- deref found;
         ret (underage user)
       else ret false);
    if underage
    then
      await allFreets <- gets FreetCollection.findAllUnflagged;
      await response <- gets (fun s => constructFreetResponse s <$> allFreets);
      respond 200 (JArr response)
    else
      await allFreets <- gets FreetCollection.findAll;
      await response <- gets (fun s => constructFreetResponse s <$> allFreets);
      respond 200 (JArr response).

Definition get_by_author_handler : Middleware := fun req =>
  await authorFreets <- FreetCollection.findAllByUsername (interpolate (query_author req));
  await response <- gets (fun s => constructFreetResponse s <$> authorFreets);
  respond 200 (JArr response).

(** [GET /api/freets] and [GET /api/freets?author=username]. *)
Definition get_all : list Middleware :=
  [get_all_handler; isAuthorExists; get_by_author_handler].

(** First handler of [GET /api/freets/:freetId?]: without an
    identifier it returns without answering. *)
Definition get_one_first : Middleware := fun req =>
  if params_freetId req is Some _ then ret Next else ret Stall.

Definition get_one_handler : Middleware := fun req =>
  await found <- gets (fun s =>
    freetId ← params_freetId req; FreetCollection.findOne freetId s);
  await freet <- deref found;
  let message :=
    if negb (fr_selfFlagged freet.2)
    then "Freet is not flagged, but here it is still for viewing!"
    else "Success. Here is the unflagged Freet." in
  await payload <- gets (fun s => constructRawFreetResponse s freet);
  respond 200 (JObj [("freet", payload); ("message", JStr message)]).

(** [GET /api/freets/:id]. *)
Definition get_one : list Middleware :=
  [get_one_first; isFreetExists; isUserLoggedIn; isUserAdult; get_one_handler].

(** The [for ... in] loop over the body: every field but [content]. *)
Fixpoint flag_responses (fields : list (string * string)) : list string :=
  match fields with
  | [] => []
  | (flags, v) :: fields' =>
      if String.eqb flags "content"
      then flag_responses fields'
      else v :: flag_responses fields'
  end.

(** [oid] and [date] are the identifier and the clock read of the
    insert. *)
Definition post_handler (oid : ObjectId) (date : Date) : Middleware := fun req =>
  let userId := default "" (session_userId req) in
  await content <- deref (body_get (req_body req) "content");
  await freet <- FreetCollection.addOne userId content (flag_responses (req_body req)) oid date;
  await payload <- gets (fun s => constructRawFreetResponse s freet);
  respond 201
    (JObj [("message", JStr "Your freet was created successfully.");
           ("freet", payload)]).

(** [POST /api/freets]. *)
Definition post (oid : ObjectId) (date : Date) : list Middleware :=
  [isUserLoggedIn; isValidFreetContent; post_handler oid date].

Definition delete_handler : Middleware := fun req =>
  await freetId <- deref (params_freetId req);
  await_ FreetCollection.deleteOne freetId;
  await userId <- deref (session_userId req);
  await_ UpvoteCollection.deleteManyByFreetId freetId userId;
  respond 200 (JObj [("message", JStr "Your freet was deleted successfully.")]).

(** [DELETE /api/freets/:id]. *)
Definition delete : list Middleware :=
  [isUserLoggedIn; isFreetExists; isValidFreetModifier; delete_handler].

End Routes.
End FreetRouter.

(** ** Upvote router (server/upvote/router.ts) *)

Module UpvoteRouter.
Import UserValidator FreetValidator UpvoteValidator UpvoteUtil.

Section Routes.
Context `{Runtime}.

Definition get_all_handler : Middleware := fun req =>
  if query_author req is Some _ then ret Next
  else
    await allUpvotes <- gets UpvoteCollection.findAll;
    await response <- mapM constructUpvoteResponse allUpvotes;
    respond 200 (JArr response).

Definition get_by_author_handler : Middleware := fun req =>
  await authorUpvotes <- UpvoteCollection.findAllByUsername (interpolate (query_author req));
  await response <- mapM constructUpvoteResponse authorUpvotes;
  respond 200 (JArr response).

(** [GET /api/upvotes] and [GET /api/upvotes?author=username]. The
    second registration of the path, for [?freetId=], is never
    reached: every request is answered or refused by this chain. *)
Definition get_all : list Middleware :=
  [get_all_handler; isAuthorExists; get_by_author_handler].

Definition post_handler (oid : ObjectId) (date : Date) : Middleware := fun req =>
  await freetId <- deref (params_freetId req);
  let userId := default "" (session_userId req) in
  await upvote <- UpvoteCollection.addOne freetId userId oid date;
  await payload <- deref (constructUpvoteResponse upvote);
  respond 201
    (JObj [("message", JStr "You have upvoted this freet successfully.");
           ("upvote", payload)]).

(** [POST /api/upvotes/:freetId]. *)
Definition post (oid : ObjectId) (date : Date) : list Middleware :=
  [isUserLoggedIn; isFreetExists; isFreetUpvotedbyUser; post_handler oid date].

Definition delete_handler : Middleware := fun req =>
  await found <- gets (fun s =>
    upvoteId ← params_upvoteId req; UpvoteCollection.findOne upvoteId s);
  await upvote <- deref found;
  let freetId := up_freetId (doc_upvote upvote) in
  await upvoteId <- deref (params_upvoteId req);
  await userId <- deref (session_userId req);
  await_ UpvoteCollection.deleteOne upvoteId userId freetId;
  respond 200 (JObj [("message", JStr "Your upvote was deleted successfully.")]).

(** [DELETE /api/upvotes/:id]. *)
Definition delete : list Middleware :=
  [isUserLoggedIn; isUpvoteExists; isValidUpvoteModifier; delete_handler].

End Routes.
End UpvoteRouter.

(** ** Notions used by the properties *)

(** The store after a computation, and what it returned. *)
Definition store_after {A : Type} (m : M A) (s : Store) : Store := (m s).2.
Definition outcome_of {A : Type} (m : M A) (s : Store) : Outcome A := (m s).1.

(** The age as the specification words it: the difference of the years,
    less one when today's month and day come before the birthday's. *)
Definition before_birthday (today birthday : Date) : Prop :=
  getMonth today < getMonth birthday
  ∨ (getMonth today = getMonth birthday ∧ getDate today < getDate birthday).

#[local] Instance before_birthday_dec today birthday : Decision (before_birthday today birthday).
Proof. unfold before_birthday. apply _. Defined.

Definition age_at_creation (today birthday : Date) : Z :=
  getFullYear today - getFullYear birthday
    - (if decide (before_birthday today birthday) then 1 else 0).

(** A live upvote by [authorId] for [freetId]. *)
Definition upvoted_by (s : Store) (authorId freetId : ObjectId) : Prop :=
  ∃ id up, upvotes s !! id = Some up
           ∧ up_authorId up = authorId ∧ up_freetId up = freetId.

(** The redundancy between users and upvotes: a user's list holds a freet
    exactly when that user has a live upvote for it. *)
Definition lists_in_sync (s : Store) : Prop :=
  ∀ authorId author, users s !! authorId = Some author →
    ∀ freetId, freetId ∈ upvotedFreets author ↔ upvoted_by s authorId freetId.

(** Uniqueness: no list holds a freet twice and no pair of user and freet
    has two live upvotes. *)
Definition at_most_one_upvote (s : Store) : Prop :=
  (∀ authorId author, users s !! authorId = Some author → NoDup (upvotedFreets author))
  ∧ (∀ id1 id2 up1 up2,
        upvotes s !! id1 = Some up1 → upvotes s !! id2 = Some up2 →
        up_authorId up1 = up_authorId up2 → up_freetId up1 = up_freetId up2 →
        id1 = id2).

(** No upvote record references [freetId]. *)
Definition no_upvote_references (s : Store) (freetId : ObjectId) : Prop :=
  ∀ id up, upvotes s !! id = Some up → up_freetId up ≠ freetId.

(** [freetId] is in no user's list. *)
Definition scrubbed_from_lists (s : Store) (freetId : ObjectId) : Prop :=
  ∀ userId user, users s !! userId = Some user → freetId ∉ upvotedFreets user.

(** The requester behind a session, when there is one and it is stored. *)
Definition requester (s : Store) (req : Request) : option User :=
  if Js.truthy (session_userId req)
  then userId ← session_userId req; users s !! userId
  else None.

(** Shapes of response bodies. *)
Definition keys (j : JSON) : option (list string) :=
  match j with
  | JObj fields => Some (fields.*1)
  | _ => None
  end.

(** [{message, <entity>}]: two fields, one of them [message]. *)
Definition is_message_entity (j : JSON) : bool :=
  match keys j with
  | Some [k1; k2] =>
      (String.eqb k1 "message" && negb (String.eqb k2 "message") && negb (String.eqb k2 "error"))
      || (String.eqb k2 "message" && negb (String.eqb k1 "message") && negb (String.eqb k1 "error"))
  | _ => false
  end.

(** [{message}] alone. *)
Definition is_message_only (j : JSON) : bool :=
  match keys j with
  | Some [k] => String.eqb k "message"
  | _ => false
  end.

(** [{error}]. *)
Definition is_error (j : JSON) : bool :=
  match keys j with
  | Some [k] => String.eqb k "error"
  | _ => false
  end.

(** A bare array. *)
Definition is_array (j : JSON) : bool :=
  match j with
  | JArr _ => true
  | _ => false
  end.

(** The endpoints of the two routers. *)
Inductive Endpoint : Type :=
| GET_freets
| GET_freets_id
| POST_freets
| DELETE_freets_id
| GET_upvotes
| POST_upvotes_freetId
| DELETE_upvotes_id.

(** The chain serving an endpoint; [oid] and [date] are the identifier
    and clock read used by an insert. *)
Definition route `{Runtime} (e : Endpoint) (oid : ObjectId) (date : Date) : list Middleware :=
  match e with
  | GET_freets => FreetRouter.get_all
  | GET_freets_id => FreetRouter.get_one
  | POST_freets => FreetRouter.post oid date
  | DELETE_freets_id => FreetRouter.delete
  | GET_upvotes => UpvoteRouter.get_all
  | POST_upvotes_freetId => UpvoteRouter.post oid date
  | DELETE_upvotes_id => UpvoteRouter.delete
  end.

(** The shape of a successful body, endpoint by endpoint, as the handlers
    build it. *)
Definition success_shape (e : Endpoint) (j : JSON) : bool :=
  match e with
  | GET_freets | GET_upvotes => is_array j
  | GET_freets_id | POST_freets | POST_upvotes_freetId => is_message_entity j
  | DELETE_freets_id | DELETE_upvotes_id => is_message_only j
  end.

Definition shape_ok (e : Endpoint) (r : Response) : bool :=
  if status r <? 400 then success_shape e (body r) else is_error (body r).

(** A refusal: a status from 400 up with an [{error}] body. *)
Definition refusal (r : Response) : Prop :=
  400 ≤ status r ∧ is_error (body r) = true.

(** A middleware all of whose responses satisfy [P]. *)
Definition sends (P : Response -> Prop) (h : Middleware) : Prop :=
  ∀ req s r s', h req s = (Returned (Respond r), s') → P r.

(** ** Sample data *)

(** A runtime for the examples: dates print as the empty string, the
    pattern match is literal, every identifier is well formed. *)
Definition sample_runtime : Runtime :=
  {| formatDate := fun _ => "";
     regexTest := fun pattern subject => String.eqb pattern subject;
     objectIdIsValid := fun _ => true |}.

Definition day0 : Date := mkDate 2022 10 2 0.

Definition alice : User := mkUser "alice" "pw" day0 (mkDate 1990 0 1 0) false [].
Definition bob : User := mkUser "bob" "pw" day0 (mkDate 1991 0 1 0) false ["f1"].
Definition carol : User := mkUser "carol" "pw" day0 (mkDate 2006 5 1 0) true [].

Definition freet1 : Freet := mkFreet "a1" "hello" day0 day0 false [].
Definition freet2 : Freet := mkFreet "b1" "spicy" day0 day0 true ["sensitive"].
Definition upvote1 : Upvote := mkUpvote "f1" "b1" day0.

(** Alice ([a1]) wrote freet [f1] and Bob ([b1]) upvoted it; Bob wrote the
    self-flagged freet [f2]; Carol ([c1]) is underage. *)
Definition sample_store : Store :=
  mkStore {[ "a1" := alice; "b1" := bob; "c1" := carol ]}
          {[ "f1" := freet1; "f2" := freet2 ]}
          {[ "u1" := upvote1 ]}.


Definition no_session : Request := mkRequest None None None None None [].
Definition as_user (userId : string) : Request :=
  mkRequest (Some userId) None None None None [].
Definition on_freet (freetId : string) (req : Request) : Request :=
  mkRequest (session_userId req) (Some freetId) (params_upvoteId req)
    (query_author req) (query_freetId req) (req_body req).
Definition on_upvote (upvoteId : string) (req : Request) : Request :=
  mkRequest (session_userId req) (params_freetId req) (Some upvoteId)
    (query_author req) (query_freetId req) (req_body req).
Definition with_body (fields : list (string * string)) (req : Request) : Request :=
  mkRequest (session_userId req) (params_freetId req) (params_upvoteId req)
    (query_author req) (query_freetId req) fields.

(** ** Further notions: dates, counts and the dispatch of routes *)

(** The day of [today] lies before the eighteenth birthday, comparing
    year, month and day in this order. *)
Definition before_eighteenth_birthday (today bday : Date) : Prop :=
  getFullYear today < getFullYear bday + 18
  ∨ (getFullYear today = getFullYear bday + 18 ∧ before_birthday today bday).




(** Every upvote record names a stored author. *)
Definition authors_stored (s : Store) : Prop :=
  ∀ id up, upvotes s !! id = Some up → is_Some (users s !! up_authorId up).

(** How the run of one route ends: with a response, with [next()] called
    by its last handler, or with the request left unanswered. *)
Inductive RouteEnd : Type :=
| Answered (r : Response)
| PassedOn
| LeftOpen.

Fixpoint run_route (chain : list Middleware) (req : Request) : M RouteEnd :=
  match chain with
  | [] => ret PassedOn
  | h :: chain' =>
      await st <- h req;
      match st with
      | Next => run_route chain' req
      | Respond r => ret (Answered r)
      | Stall => ret LeftOpen
      end
  end.

(** The routes registered for one method and path, tried in the order of
    their registration: a later one runs only when the earlier ones have
    passed the request on. *)
Fixpoint dispatch (routes : list (list Middleware)) (req : Request) : M RouteEnd :=
  match routes with
  | [] => ret PassedOn
  | chain :: routes' =>
      await e <- run_route chain req;
      match e with
      | PassedOn => dispatch routes' req
      | _ => ret e
      end
  end.

(** A request with an author filter. *)
Definition by_author (name : string) (req : Request) : Request :=
  mkRequest (session_userId req) (params_freetId req) (params_upvoteId req)
    (Some name) (query_freetId req) (req_body req).

(** ** Identifiers as the driver casts them

    A query that filters on [_id] or on a reference casts the string it
    is given to an ObjectId first, and rejects with a CastError when the
    string is not the string form of one. The collection methods above
    are the program on identifiers that pass this cast; the methods
    below, for the properties that speak of every input, carry the
    cast. *)

Module WithCast.
Section Cast.
Context `{Runtime}.

Definition castObjectId (id : string) : M string :=
  if objectIdIsValid id then ret id else throw.

(** [UserModel.findOne({_id: userId})]. *)
Definition UserCollection_findOneByUserId (userId : ObjectId) : M (option User) :=
  await id <- castObjectId userId;
  gets (UserCollection.findOneByUserId id).

(** [UserCollection.deleteOne]. *)
Definition UserCollection_deleteOne (userId : ObjectId) : M bool :=
  await id <- castObjectId userId;
  await user <- UserCollection.UserModel_deleteOne id;
  ret (strict_neq_null user).

(** [UpvoteCollection.deleteOne]: the author is looked up first, and the
    delete query, with its cast of [upvoteId], comes after the save of
    the author. *)
Definition UpvoteCollection_deleteOne (upvoteId authorId freetId : ObjectId) : M bool :=
  await found <- UserCollection_findOneByUserId authorId;
  await author <- deref found;
  let author :=
    mkUser (username author) (password author) (dateJoined author)
      (birthday author) (underage author)
      (Js.splice (Js.indexOf (upvotedFreets author) freetId) 1 (upvotedFreets author)) in
  await_ modify (set_users (insert authorId author));
  await id <- castObjectId upvoteId;
  await upvote <- UpvoteCollection.UpvoteModel_deleteOne id;
  ret (strict_neq_null upvote).

(** [UpvoteCollection.deleteManyByAuthorId]: the two lookups of the
    author, then the delete query. *)
Definition UpvoteCollection_deleteManyByAuthorId (authorId : ObjectId) : M unit :=
  await found <- UserCollection_findOneByUserId authorId;
  await_ (if found is Some _
          then
            await again <- UserCollection_findOneByUserId authorId;
            await author <- deref again;
            modify (set_users (insert authorId
              (mkUser (username author) (password author) (dateJoined author)
                 (birthday author) (underage author) [])))
          else ret tt);
  await id <- castObjectId authorId;
  UpvoteCollection.UpvoteModel_deleteMany (fun u => String.eqb (up_authorId u) id).

End Cast.
End WithCast.

(** A runtime for the examples in which an identifier is well formed
    when it is made of 24 hexadecimal digits. *)
Definition is_hex_digit (c : ascii) : bool :=
  let n := nat_of_ascii c in
  ((48 <=? n)%nat && (n <=? 57)%nat)
  || ((97 <=? n)%nat && (n <=? 102)%nat)
  || ((65 <=? n)%nat && (n <=? 70)%nat).

Fixpoint all_hex (s : string) : bool :=
  match s with
  | EmptyString => true
  | String c s' => is_hex_digit c && all_hex s'
  end.

Definition strict_runtime : Runtime :=
  {| formatDate := fun _ => "";
     regexTest := fun pattern subject => String.eqb pattern subject;
     objectIdIsValid := fun id => (String.length id =? 24)%nat && all_hex id |}.

Definition hex_alice : ObjectId := "507f1f77bcf86cd799439011".
Definition hex_other : ObjectId := "507f1f77bcf86cd799439012".
Definition hex_upvote : ObjectId := "507f1f77bcf86cd799439013".

(** Alice alone, under a well-formed identifier, with one freet in her
    list. *)
Definition hex_store : Store :=
  mkStore {[ hex_alice := mkUser "alice" "pw" day0 (mkDate 1990 0 1 0) false ["f1"] ]} ∅ ∅.

(** * Properties *)

(** Unfolds the store computations down to pairs of outcome and store. *)
Ltac run :=
  unfold store_after, outcome_of, respond, bind, gets, modify, deref, ret, throw in *;
  simpl in *.

(** The two removals of [UpvoteCollection] and the removal of a user. *)
Ltac unfold_removal :=
  unfold UpvoteCollection.deleteOne, UpvoteCollection.deleteManyByFreetId,
    UpvoteCollection.UpvoteModel_deleteOne, UpvoteCollection.UpvoteModel_deleteMany,
    UserCollection.deleteOne, UserCollection.UserModel_deleteOne,
    UserCollection.findOneByUserId;
  run.

(** The chain of [POST /upvotes/:freetId]. *)
Ltac unfold_post :=
  unfold UpvoteRouter.post, UpvoteRouter.post_handler,
    UserValidator.isUserLoggedIn, FreetValidator.isFreetExists,
    UpvoteValidator.isFreetUpvotedbyUser, UpvoteCollection.addOne,
    UpvoteCollection.populate, UpvoteUtil.constructUpvoteResponse,
    FreetCollection.findOne, UserCollection.findOneByUserId in *;
  simpl in *; run.

(** The writing methods of [UpvoteCollection]. *)
Ltac unfold_upvotes :=
  unfold UpvoteCollection.addOne, UpvoteCollection.deleteOne,
    UpvoteCollection.deleteManyByAuthorId, UpvoteCollection.deleteManyByFreetId,
    UpvoteCollection.UpvoteModel_deleteOne, UpvoteCollection.UpvoteModel_deleteMany,
    UpvoteCollection.populate, UserCollection.findOneByUserId in *;
  run.

(** The chain of [DELETE /upvotes/:id]. *)
Ltac unfold_delete :=
  unfold UpvoteRouter.delete, UpvoteRouter.delete_handler,
    UserValidator.isUserLoggedIn, UpvoteValidator.isUpvoteExists,
    UpvoteValidator.isValidUpvoteModifier, UpvoteCollection.findOne,
    UpvoteCollection.populate, UpvoteCollection.deleteOne,
    UpvoteCollection.UpvoteModel_deleteOne, UserCollection.findOneByUserId in *;
  simpl in *; run.

(** The methods with the cast of their identifiers. *)
Ltac unfold_cast :=
  unfold WithCast.UserCollection_deleteOne, WithCast.UpvoteCollection_deleteOne,
    WithCast.UpvoteCollection_deleteManyByAuthorId,
    WithCast.UserCollection_findOneByUserId, WithCast.castObjectId,
    UserCollection.UserModel_deleteOne, UpvoteCollection.UpvoteModel_deleteOne,
    UpvoteCollection.UpvoteModel_deleteMany, UserCollection.findOneByUserId in *;
  run.

(** Splits the goal along the innermost scrutinee, again and again. *)
Ltac destruct_innermost :=
  repeat match goal with
    | |- context [match ?x with _ => _ end] =>
        lazymatch x with
        | context [match _ with _ => _ end] => fail
        | _ => destruct x eqn:?; simpl
        end
    end.

(** Splits the run of a handler into its cases. *)
Ltac handler_cases :=
  repeat match goal with
    | Hrun : (_, _) = (Returned (Respond _), _) |- _ =>
        injection Hrun as <- <- || discriminate Hrun
    | Hrun : context [match ?x with _ => _ end] |- _ =>
        destruct x eqn:?; simpl in Hrun
    end.

Ltac handler := intros req s r s' Hrun; run; handler_cases.

(** ** Arrays *)

Section Arrays.

Lemma indexOf_from_absent (x : string) (l : list string) (i : Z) :
  x ∉ l → Js.indexOf_from x l i = -1.
Proof.
  revert i. induction l as [|y l IH]; intros i Hx; simpl; [done|].
  apply not_elem_of_cons in Hx as [Hne Hx].
  destruct (String.eqb_spec y x) as [->|_]; [done|]. by apply IH.
Qed.

Lemma indexOf_absent (l : list string) (x : string) :
  x ∉ l → Js.indexOf l x = -1.
Proof. apply indexOf_from_absent. Qed.

Lemma includes_elem_of (l : list string) (x : string) :
  Js.includes l x = true ↔ x ∈ l.
Proof.
  induction l as [|y l IH]; simpl.
  - split; [done|]. by intros ?%elem_of_nil.
  - rewrite orb_true_iff, IH, elem_of_cons.
    destruct (String.eqb_spec y x) as [->|Hne]; [tauto|].
    split; [intros [?|?]; [done|by right]|intros [?|?]; [congruence|by right]].
Qed.

(** [splice(-1, 1)] drops the last element, if there is one. *)
Lemma splice_minus_one {A : Type} (l : list A) :
  Js.splice (-1) 1 l = removelast l.
Proof.
  unfold Js.splice. simpl.
  destruct (decide (l = [])) as [->|Hne]; [done|].
  assert (0 < length l)%nat by (destruct l; simpl; [done|lia]).
  set (len := Z.of_nat (length l)).
  replace (Z.max (len + -1) 0) with (len - 1) by lia.
  replace (Z.to_nat (len - 1 + Z.min (Z.max 1 0) (len - (len - 1))))
    with (length l) by lia.
  rewrite drop_all, app_nil_r, removelast_firstn_len.
  f_equal. lia.
Qed.

Lemma removelast_shorter {A : Type} (l : list A) :
  l ≠ [] → length (removelast l) = pred (length l).
Proof.
  intros Hne. rewrite removelast_firstn_len, length_take. lia.
Qed.

End Arrays.

(** ** Users: the age gate and what an update leaves alone *)

Section Users.

Lemma calculateAge_spec (today birthday : Date) :
  UserCollection.calculateAge today birthday = age_at_creation today birthday.
Proof.
  unfold UserCollection.calculateAge, age_at_creation, before_birthday.
  destruct (decide _) as [Hb|Hb];
    destruct (getMonth today - getMonth birthday <? 0) eqn:Hm;
    destruct (getMonth today - getMonth birthday =? 0) eqn:He;
    destruct (getDate today <? getDate birthday) eqn:Hd;
    simpl; lia.
Qed.

(** C8: the underage flag is set when the account is created, to
    whether the age then (the difference of the years, less one before
    the birthday in the year) is below 18, and [updateOne] writes only
    the password and the user name: the flag, the birthday, the join
    date and the upvoted list of the updated user stay as they were, and
    so does every other document. *)
Theorem underage_set_at_creation_and_kept_by_update
    (s : Store) (name pw : string) (bday : Date) (oid : ObjectId) (now today : Date)
    (userId : ObjectId) (details : UserCollection.UserDetails) (user : User)
    (Huser : users s !! userId = Some user) :
  (∃ created,
      outcome_of (UserCollection.addOne name pw bday oid now today) s
        = Returned (oid, created)
      ∧ users (store_after (UserCollection.addOne name pw bday oid now today) s) !! oid
        = Some created
      ∧ UserCollection.calculateAge today bday = age_at_creation today bday
      ∧ underage created = bool_decide (age_at_creation today bday < 18))
  ∧ (∃ updated,
      outcome_of (UserCollection.updateOne userId details) s = Returned updated
      ∧ users (store_after (UserCollection.updateOne userId details) s) !! userId
        = Some updated
      ∧ underage updated = underage user
      ∧ birthday updated = birthday user
      ∧ dateJoined updated = dateJoined user
      ∧ upvotedFreets updated = upvotedFreets user
      ∧ password updated
        = (if Js.truthy (UserCollection.ud_password details)
           then default "" (UserCollection.ud_password details) else password user)
      ∧ username updated
        = (if Js.truthy (UserCollection.ud_username details)
           then default "" (UserCollection.ud_username details) else username user)
      ∧ (∀ other, other ≠ userId →
           users (store_after (UserCollection.updateOne userId details) s) !! other
           = users s !! other)
      ∧ freets (store_after (UserCollection.updateOne userId details) s) = freets s
      ∧ upvotes (store_after (UserCollection.updateOne userId details) s) = upvotes s).
Proof.
  split.
  - eexists. unfold UserCollection.addOne. run.
    split; [reflexivity|]. split; [apply lookup_insert_eq|].
    split; [apply calculateAge_spec|].
    rewrite calculateAge_spec.
    destruct (Z.ltb_spec (age_at_creation today bday) 18);
      [by rewrite bool_decide_eq_true_2|by rewrite bool_decide_eq_false_2; [|lia]].
  - unfold UserCollection.updateOne, UserCollection.findOneByUserId. run.
    rewrite Huser. simpl.
    eexists. split; [reflexivity|]. split; [apply lookup_insert_eq|].
    destruct (Js.truthy (UserCollection.ud_password details));
      destruct (Js.truthy (UserCollection.ud_username details)); simpl;
      repeat split; try done; intros other Hne; by apply lookup_insert_ne.
Qed.

Lemma underage_set_at_creation_and_kept_by_update_witness :
  users sample_store !! "c1" = Some carol
  ∧ underage <$>
      users (store_after
               (UserCollection.updateOne "c1"
                  (UserCollection.mkUserDetails (Some "secret") (Some "caroline")))
               sample_store) !! "c1"
    = Some true.
Proof.
  split; [reflexivity|].
  destruct (underage_set_at_creation_and_kept_by_update sample_store
              "dave" "pw" (mkDate 2005 10 3 0) "d1" day0 day0 "c1"
              (UserCollection.mkUserDetails (Some "secret") (Some "caroline"))
              carol eq_refl) as [_ (updated & _ & Hstored & Hflag & _)].
  rewrite Hstored. simpl. rewrite Hflag. reflexivity.
Defined.

(** The collection methods on upvotes rewrite a user's list only. *)
Lemma upvote_methods_keep_underage (s : Store) (freetId authorId upvoteId oid : ObjectId)
    (date : Date) (userId : ObjectId) :
  underage <$> users (store_after (UpvoteCollection.addOne freetId authorId oid date) s) !! userId
    = underage <$> users s !! userId
  ∧ underage <$> users (store_after (UpvoteCollection.deleteOne upvoteId authorId freetId) s) !! userId
    = underage <$> users s !! userId
  ∧ underage <$> users (store_after (UpvoteCollection.deleteManyByAuthorId authorId) s) !! userId
    = underage <$> users s !! userId
  ∧ underage <$> users (store_after (UpvoteCollection.deleteManyByFreetId freetId authorId) s) !! userId
    = underage <$> users s !! userId.
Proof.
  unfold UpvoteCollection.addOne, UpvoteCollection.deleteOne,
    UpvoteCollection.deleteManyByAuthorId, UpvoteCollection.deleteManyByFreetId,
    UpvoteCollection.UpvoteModel_deleteOne, UpvoteCollection.UpvoteModel_deleteMany,
    UserCollection.findOneByUserId.
  run.
  destruct (users s !! authorId) as [author|] eqn:Ha; simpl;
    repeat split; try done;
    (destruct (decide (userId = authorId)) as [->|Hne];
     [rewrite lookup_insert_eq, Ha; done | rewrite lookup_insert_ne by done; done]).
Qed.

End Users.

(** ** Removing an upvote: the splice and the returned flag *)

Section UpvoteRemoval.


(** C9: when the freet is not in the author's list, [indexOf] is [-1]
    and the splice of [deleteOne] and of [deleteManyByFreetId] removes
    the last element of the list: the stored list becomes the old one
    without its last element, one shorter whenever the old one was not
    empty. *)
Theorem absent_freet_splices_last_element
    (s : Store) (upvoteId authorId freetId : ObjectId) (author : User)
    (Hauthor : users s !! authorId = Some author)
    (Habsent : freetId ∉ upvotedFreets author) :
  Js.indexOf (upvotedFreets author) freetId = -1
  ∧ outcome_of (UpvoteCollection.deleteOne upvoteId authorId freetId) s = Returned true
  ∧ upvotedFreets <$>
      users (store_after (UpvoteCollection.deleteOne upvoteId authorId freetId) s) !! authorId
    = Some (removelast (upvotedFreets author))
  ∧ outcome_of (UpvoteCollection.deleteManyByFreetId freetId authorId) s = Returned tt
  ∧ upvotedFreets <$>
      users (store_after (UpvoteCollection.deleteManyByFreetId freetId authorId) s) !! authorId
    = Some (removelast (upvotedFreets author))
  ∧ (upvotedFreets author ≠ [] →
     length (removelast (upvotedFreets author)) = pred (length (upvotedFreets author))).
Proof.
  pose proof (indexOf_absent _ _ Habsent) as Hidx.
  split; [done|].
  unfold_removal. rewrite Hauthor. simpl.
  rewrite !lookup_insert_eq, Hidx, splice_minus_one. simpl.
  repeat split; try done. apply removelast_shorter.
Qed.

Lemma absent_freet_splices_last_element_witness :
  upvotedFreets <$>
    users (store_after (UpvoteCollection.deleteOne "u9" "b1" "f2") sample_store) !! "b1"
  = Some [].
Proof.
  destruct (absent_freet_splices_last_element sample_store "u9" "b1" "f2" bob)
    as (_ & _ & Hlist & _).
  - reflexivity.
  - intros [Heq|Hin]%elem_of_cons; [discriminate Heq|by apply elem_of_nil in Hin].
  - exact Hlist.
Defined.

(** The flag is the comparison of a result object with [null]. *)
Lemma upvote_deleteOne_never_false
    (s : Store) (upvoteId authorId freetId : ObjectId) :
  outcome_of (UpvoteCollection.deleteOne upvoteId authorId freetId) s ≠ Returned false.
Proof.
  unfold_removal. by destruct (users s !! authorId).
Qed.

End UpvoteRemoval.

Section DeleteFlags.
Context `{Runtime}.

(** C10, as amended: neither [UserCollection.deleteOne] nor
    [UpvoteCollection.deleteOne] ever returns [false]. The first returns
    [true] for every well-formed identifier, and the second for every
    well-formed upvote identifier and every freet once its author is a
    well-formed identifier of a stored user, whether or not a record is
    removed. On an ill-formed identifier the query throws, and with an
    author that is not stored the second throws on the [null] author. *)
Theorem deleteOne_returns_true_on_well_formed_ids
    (s : Store) (userId upvoteId authorId freetId : ObjectId) :
  outcome_of (WithCast.UserCollection_deleteOne userId) s ≠ Returned false
  ∧ outcome_of (WithCast.UpvoteCollection_deleteOne upvoteId authorId freetId) s
    ≠ Returned false
  ∧ (objectIdIsValid userId = true →
       outcome_of (WithCast.UserCollection_deleteOne userId) s = Returned true)
  ∧ (objectIdIsValid authorId = true → objectIdIsValid upvoteId = true →
     ∀ author, users s !! authorId = Some author →
       outcome_of (WithCast.UpvoteCollection_deleteOne upvoteId authorId freetId) s
       = Returned true)
  ∧ (objectIdIsValid userId = false →
       WithCast.UserCollection_deleteOne userId s = (Threw, s))
  ∧ (objectIdIsValid authorId = false ∨ users s !! authorId = None →
       WithCast.UpvoteCollection_deleteOne upvoteId authorId freetId s = (Threw, s))
  ∧ (objectIdIsValid upvoteId = false →
       outcome_of (WithCast.UpvoteCollection_deleteOne upvoteId authorId freetId) s = Threw).
Proof.
  unfold_cast.
  destruct (objectIdIsValid userId); destruct (objectIdIsValid authorId);
    destruct (objectIdIsValid upvoteId); destruct (users s !! authorId) as [author|];
    simpl; repeat split; try done; try (by intros [|]); by intros _ _ a [=].
Qed.

End DeleteFlags.

Lemma deleteOne_returns_true_on_well_formed_ids_witness :
  users hex_store !! hex_other = None
  ∧ upvotes hex_store !! hex_upvote = None
  ∧ outcome_of (@WithCast.UserCollection_deleteOne strict_runtime hex_other) hex_store
    = Returned true
  ∧ outcome_of (@WithCast.UpvoteCollection_deleteOne strict_runtime hex_upvote hex_alice "f1")
      hex_store
    = Returned true.
Proof.
  split; [reflexivity|]. split; [reflexivity|].
  destruct (@deleteOne_returns_true_on_well_formed_ids strict_runtime hex_store
              hex_other hex_upvote hex_alice "f1") as (_ & _ & Huser & Hupvote & _).
  split.
  - apply Huser. reflexivity.
  - eapply Hupvote; reflexivity.
Defined.

(** C10, as stated, fails: [UserCollection.deleteOne] throws on an
    identifier that is not well formed, and [UpvoteCollection.deleteOne]
    throws on it too, as it does on a well-formed author that is not
    stored. *)
Lemma deleteOne_throws_on_bad_id_or_unknown_author :
  @objectIdIsValid strict_runtime "nobody" = false
  ∧ outcome_of (@WithCast.UserCollection_deleteOne strict_runtime "nobody") hex_store = Threw
  ∧ outcome_of (@WithCast.UpvoteCollection_deleteOne strict_runtime hex_upvote "nobody" "f1")
      hex_store = Threw
  ∧ @objectIdIsValid strict_runtime hex_other = true
  ∧ users hex_store !! hex_other = None
  ∧ outcome_of (@WithCast.UpvoteCollection_deleteOne strict_runtime hex_upvote hex_other "f1")
      hex_store = Threw.
Proof. repeat split; vm_compute; reflexivity. Qed.

(** ** The upvoted list and the upvote records *)

Section Sync.

Lemma elem_of_split_first (x : string) (l : list string) :
  x ∈ l → ∃ l1 l2, l = l1 ++ x :: l2 ∧ x ∉ l1.
Proof.
  induction l as [|y l IH]; [by intros ?%elem_of_nil|].
  intros Hin. destruct (decide (y = x)) as [->|Hne].
  - exists [], l. split; [done|]. by intros ?%elem_of_nil.
  - apply elem_of_cons in Hin as [->|Hin]; [done|].
    destruct (IH Hin) as (l1 & l2 & -> & Hl1).
    exists (y :: l1), l2. split; [done|].
    intros [->|?]%elem_of_cons; [done|by apply Hl1].
Qed.

Lemma indexOf_from_first (x : string) (l1 l2 : list string) (i : Z) :
  x ∉ l1 → Js.indexOf_from x (l1 ++ x :: l2) i = i + Z.of_nat (length l1).
Proof.
  revert i. induction l1 as [|y l1 IH]; intros i Hx; simpl.
  - rewrite String.eqb_refl. lia.
  - apply not_elem_of_cons in Hx as [Hne Hx].
    destruct (String.eqb_spec y x) as [->|_]; [done|].
    rewrite IH by done. lia.
Qed.

Lemma splice_one_at {A : Type} (l1 l2 : list A) (x : A) :
  Js.splice (Z.of_nat (length l1)) 1 (l1 ++ x :: l2) = l1 ++ l2.
Proof.
  unfold Js.splice. rewrite length_app. simpl length.
  destruct (Z.ltb_spec (Z.of_nat (length l1)) 0) as [?|_]; [lia|].
  set (n := Z.of_nat (length l1)).
  replace (Z.min n (Z.of_nat (length l1 + S (length l2)))) with n by lia.
  replace (Z.to_nat (n + Z.min (Z.max 1 0) (Z.of_nat (length l1 + S (length l2)) - n)))
    with (length l1 + 1)%nat by lia.
  replace (Z.to_nat n) with (length l1) by lia.
  rewrite take_app_length.
  rewrite <- drop_drop, drop_app_length. reflexivity.
Qed.

(** The splice of [deleteOne] on a list that holds the freet removes its
    first occurrence. *)
Lemma splice_indexOf_present (l : list string) (x : string) :
  x ∈ l →
  ∃ l1 l2, l = l1 ++ x :: l2 ∧ (x ∉ l1)
           ∧ Js.splice (Js.indexOf l x) 1 l = l1 ++ l2.
Proof.
  intros (l1 & l2 & -> & Hl1)%elem_of_split_first.
  exists l1, l2. split; [done|]. split; [done|].
  unfold Js.indexOf. rewrite indexOf_from_first by done.
  rewrite Z.add_0_l. apply splice_one_at.
Qed.

(** [addOne] keeps the list of its author and the records in step, for
    a fresh record identifier. *)
Lemma addOne_keeps_sync (s : Store) (freetId authorId oid : ObjectId) (date : Date) :
  upvotes s !! oid = None → lists_in_sync s →
  lists_in_sync (store_after (UpvoteCollection.addOne freetId authorId oid date) s).
Proof.
  intros Hfresh Hsync.
  unfold UpvoteCollection.addOne, UserCollection.findOneByUserId. run.
  destruct (users s !! authorId) as [author|] eqn:Ha; simpl; [|done].
  intros a u Hu g. simpl in Hu. unfold upvoted_by. simpl.
  destruct (decide (a = authorId)) as [->|Hne].
  - rewrite lookup_insert_eq in Hu. injection Hu as <-. simpl.
    unfold Js.push. rewrite elem_of_app, list_elem_of_singleton, (Hsync _ _ Ha g).
    split.
    + intros [(id & up & Hup & Hau & Hfr)| ->].
      * exists id, up. rewrite lookup_insert_ne by congruence. done.
      * exists oid, (mkUpvote freetId authorId date). by rewrite lookup_insert_eq.
    + intros (id & up & Hup & Hau & Hfr).
      destruct (decide (id = oid)) as [->|Hid].
      * rewrite lookup_insert_eq in Hup. injection Hup as <-. by right.
      * rewrite lookup_insert_ne in Hup by done. left. by exists id, up.
  - rewrite lookup_insert_ne in Hu by done. rewrite (Hsync _ _ Hu g).
    split.
    + intros (id & up & Hup & Hau & Hfr).
      exists id, up. rewrite lookup_insert_ne by congruence. done.
    + intros (id & up & Hup & Hau & Hfr).
      destruct (decide (id = oid)) as [->|Hid].
      * rewrite lookup_insert_eq in Hup. injection Hup as <-. simpl in Hau. congruence.
      * rewrite lookup_insert_ne in Hup by done. by exists id, up.
Qed.

(** With the guard of the route (the freet is not yet in the list),
    [addOne] keeps uniqueness as well. *)
Lemma addOne_keeps_uniqueness (s : Store) (freetId authorId oid : ObjectId)
    (date : Date) (author : User) :
  users s !! authorId = Some author → freetId ∉ upvotedFreets author →
  upvotes s !! oid = None → lists_in_sync s → at_most_one_upvote s →
  at_most_one_upvote (store_after (UpvoteCollection.addOne freetId authorId oid date) s).
Proof.
  intros Ha Hnew Hfresh Hsync [Hnodup Huniq].
  unfold UpvoteCollection.addOne, UserCollection.findOneByUserId. run.
  rewrite Ha. simpl. split; simpl.
  - intros a u Hu. destruct (decide (a = authorId)) as [->|Hne].
    + rewrite lookup_insert_eq in Hu. injection Hu as <-. simpl.
      unfold Js.push. apply NoDup_app. split; [by eapply Hnodup|].
      split; [|apply NoDup_singleton].
      intros g Hg ->%list_elem_of_singleton. done.
    + rewrite lookup_insert_ne in Hu by done. by eapply Hnodup.
  - assert (Hclash : ∀ id up, upvotes s !! id = Some up →
              up_authorId up = authorId → up_freetId up = freetId → False).
    { intros id up Hup Hau Hfr. apply Hnew, (Hsync _ _ Ha). by exists id, up. }
    intros id1 id2 up1 up2 H1 H2 Hau Hfr.
    destruct (decide (id1 = oid)) as [->|Hid1];
      destruct (decide (id2 = oid)) as [->|Hid2]; [done| | |].
    + rewrite lookup_insert_eq in H1. injection H1 as <-.
      rewrite lookup_insert_ne in H2 by done. simpl in *.
      exfalso. by eapply (Hclash id2 up2).
    + rewrite lookup_insert_eq in H2. injection H2 as <-.
      rewrite lookup_insert_ne in H1 by done. simpl in *.
      exfalso. by eapply (Hclash id1 up1).
    + rewrite lookup_insert_ne in H1, H2 by done. by eapply Huniq.
Qed.

(** [deleteOne], called for a stored upvote with that upvote's author
    and freet, keeps the lists and the records in step when nothing is
    held twice. *)
Lemma deleteOne_keeps_sync (s : Store) (upvoteId : ObjectId) (up : Upvote) (author : User) :
  upvotes s !! upvoteId = Some up →
  users s !! up_authorId up = Some author →
  lists_in_sync s → at_most_one_upvote s →
  let s' := store_after
              (UpvoteCollection.deleteOne upvoteId (up_authorId up) (up_freetId up)) s in
  lists_in_sync s' ∧ at_most_one_upvote s'.
Proof.
  intros Hup Ha Hsync [Hnodup Huniq].
  unfold UpvoteCollection.deleteOne, UpvoteCollection.UpvoteModel_deleteOne,
    UserCollection.findOneByUserId. run.
  rewrite Ha. simpl.
  assert (Hin : up_freetId up ∈ upvotedFreets author).
  { apply (Hsync _ _ Ha). by exists upvoteId, up. }
  destruct (splice_indexOf_present _ _ Hin) as (l1 & l2 & Hl & Hl1 & ->).
  pose proof (Hnodup _ _ Ha) as Hnd. rewrite Hl in Hnd.
  apply NoDup_app in Hnd as (Hnd1 & Hdisj & Hnd2).
  apply NoDup_cons in Hnd2 as [Hl2 Hnd2].
  assert (Hgone : up_freetId up ∉ l1 ++ l2).
  { intros [?|?]%elem_of_app; done. }
  assert (Hkept : ∀ g, g ∈ l1 ++ l2 ↔ g ∈ upvotedFreets author ∧ g ≠ up_freetId up).
  { intros g. rewrite Hl, !elem_of_app, elem_of_cons. split.
    - intros Hg. split; [tauto|]. intros ->. apply Hgone, elem_of_app. tauto.
    - intros [[?|[?|?]] ?]; tauto. }
  split.
  - intros a u Hu g. simpl in Hu. unfold upvoted_by. simpl.
    destruct (decide (a = up_authorId up)) as [->|Hne].
    + rewrite lookup_insert_eq in Hu. injection Hu as <-. simpl.
      rewrite Hkept, (Hsync _ _ Ha g). split.
      * intros [(id & up' & Hup' & Hau & Hfr) Hg].
        exists id, up'. rewrite lookup_delete_ne by congruence. done.
      * intros (id & up' & Hup' & Hau & Hfr).
        apply lookup_delete_Some in Hup' as [Hid Hup'].
        split; [by exists id, up'|].
        intros ->. apply Hid. symmetry. by eapply Huniq.
    + rewrite lookup_insert_ne in Hu by done. rewrite (Hsync _ _ Hu g). split.
      * intros (id & up' & Hup' & Hau & Hfr).
        exists id, up'. rewrite lookup_delete_ne by congruence. done.
      * intros (id & up' & Hup' & Hau & Hfr).
        apply lookup_delete_Some in Hup' as [Hid Hup']. by exists id, up'.
  - split; simpl.
    + intros a u Hu. destruct (decide (a = up_authorId up)) as [->|Hne].
      * rewrite lookup_insert_eq in Hu. injection Hu as <-. simpl.
        apply NoDup_app. split; [done|]. split; [|done].
        intros g Hg Hg2. apply (Hdisj g Hg). by right.
      * rewrite lookup_insert_ne in Hu by done. by eapply Hnodup.
    + intros id1 id2 up1 up2 [_ H1]%lookup_delete_Some [_ H2]%lookup_delete_Some.
      by eapply Huniq.
Qed.

End Sync.

Section SyncClaims.

Lemma sample_store_in_sync : lists_in_sync sample_store.
Proof.
  intros a u Hu g. unfold upvoted_by. simpl in *.
  apply lookup_insert_Some in Hu as [[<- <-]|[_ Hu]];
    [|apply lookup_insert_Some in Hu as [[<- <-]|[_ Hu]];
      [|apply lookup_singleton_Some in Hu as [<- <-]]]; simpl.
  - split; [by intros ?%elem_of_nil|].
    intros (id & up & [<- <-]%lookup_singleton_Some & Hau & _). discriminate Hau.
  - split.
    + intros ->%list_elem_of_singleton. by exists "u1", upvote1.
    + intros (id & up & [<- <-]%lookup_singleton_Some & _ & <-).
      by apply list_elem_of_singleton.
  - split; [by intros ?%elem_of_nil|].
    intros (id & up & [<- <-]%lookup_singleton_Some & Hau & _). discriminate Hau.
Qed.

Lemma sample_store_unique : at_most_one_upvote sample_store.
Proof.
  split; simpl.
  - intros a u Hu.
    apply lookup_insert_Some in Hu as [[<- <-]|[_ Hu]];
      [|apply lookup_insert_Some in Hu as [[<- <-]|[_ Hu]];
        [|apply lookup_singleton_Some in Hu as [<- <-]]]; simpl.
    + apply NoDup_nil_2.
    + apply NoDup_singleton.
    + apply NoDup_nil_2.
  - intros id1 id2 up1 up2 [<- _]%lookup_singleton_Some [<- _]%lookup_singleton_Some _ _.
    reflexivity.
Qed.





End SyncClaims.

(** ** Reading freets: the listing and the single fetch *)

Section FreetReading.
Context `{Runtime}.

Lemma requester_session (s : Store) (req : Request) (user : User) :
  requester s req = Some user →
  Js.truthy (session_userId req) = true
  ∧ (userId ← session_userId req; UserCollection.findOneByUserId userId s) = Some user.
Proof.
  unfold requester, UserCollection.findOneByUserId.
  destruct (Js.truthy (session_userId req)); [done|discriminate].
Qed.

Lemma findAllUnflagged_spec (s : Store) (doc : ObjectId * Freet) :
  doc ∈ FreetCollection.findAllUnflagged s
  ↔ freets s !! doc.1 = Some doc.2 ∧ fr_selfFlagged doc.2 = false.
Proof.
  unfold FreetCollection.findAllUnflagged.
  rewrite list_elem_of_filter. destruct doc as [id f]. simpl.
  rewrite elem_of_map_to_list. tauto.
Qed.

Lemma findAll_spec (s : Store) (doc : ObjectId * Freet) :
  doc ∈ FreetCollection.findAll s ↔ freets s !! doc.1 = Some doc.2.
Proof.
  unfold FreetCollection.findAll. destruct doc as [id f]. simpl.
  by rewrite elem_of_map_to_list.
Qed.

(** C3: without an author filter, a stored requester whose underage
    flag is set is sent exactly the freets with no self-flag, so that no
    item of the answer comes from a self-flagged freet; a request
    without a session, or from a requester whose flag is not set, is
    sent all freets. *)
Theorem listing_hides_flagged_freets_from_underage
    (s : Store) (req : Request) (Hno_filter : query_author req = None) :
  (∀ user, requester s req = Some user → underage user = true →
     run_chain FreetRouter.get_all req s
       = (Returned (Some (mkResponse 200
            (JArr (FreetUtil.constructFreetResponse s <$> FreetCollection.findAllUnflagged s)))),
          s)
     ∧ (∀ item, item ∈ FreetUtil.constructFreetResponse s <$> FreetCollection.findAllUnflagged s →
          ∃ freetId freet,
            item = FreetUtil.constructFreetResponse s (freetId, freet)
            ∧ freets s !! freetId = Some freet ∧ fr_selfFlagged freet = false)
     ∧ (∀ freetId freet, freets s !! freetId = Some freet → fr_selfFlagged freet = false →
          FreetUtil.constructFreetResponse s (freetId, freet)
            ∈ FreetUtil.constructFreetResponse s <$> FreetCollection.findAllUnflagged s))
  ∧ (Js.truthy (session_userId req) = false
     ∨ (∃ user, requester s req = Some user ∧ underage user = false) →
     run_chain FreetRouter.get_all req s
       = (Returned (Some (mkResponse 200
            (JArr (FreetUtil.constructFreetResponse s <$> FreetCollection.findAll s)))),
          s)
     ∧ (∀ freetId freet, freets s !! freetId = Some freet →
          FreetUtil.constructFreetResponse s (freetId, freet)
            ∈ FreetUtil.constructFreetResponse s <$> FreetCollection.findAll s)).
Proof.
  split.
  - intros user [Htruthy Hfound]%requester_session Hunder.
    split; [|split].
    + unfold FreetRouter.get_all, FreetRouter.get_all_handler. simpl. run.
      rewrite Hno_filter, Htruthy. simpl. rewrite Hfound. simpl.
      rewrite Hunder. reflexivity.
    + intros item ([freetId freet] & -> & Hdoc)%list_elem_of_fmap.
      apply findAllUnflagged_spec in Hdoc as [? ?]. by exists freetId, freet.
    + intros freetId freet Hstored Hflag.
      apply list_elem_of_fmap. exists (freetId, freet). split; [done|].
      by apply findAllUnflagged_spec.
  - intros Hother. split.
    + unfold FreetRouter.get_all, FreetRouter.get_all_handler. simpl. run.
      rewrite Hno_filter.
      destruct Hother as [Hfalsy|(user & [Htruthy Hfound]%requester_session & Hadult)].
      * rewrite Hfalsy. reflexivity.
      * rewrite Htruthy. simpl. rewrite Hfound. simpl. rewrite Hadult. reflexivity.
    + intros freetId freet Hstored.
      apply list_elem_of_fmap. exists (freetId, freet). split; [done|].
      by apply findAll_spec.
Qed.

(** C2, as amended: for a stored freet, the single fetch refuses with
    403 and an error body every request without a session, whether the
    freet is self-flagged or not, and a stored requester whose underage
    flag is set when the freet is self-flagged; it answers with the freet
    in full a stored requester whose flag is not set, and one whose flag
    is set when the freet is not self-flagged. *)
Theorem single_fetch_needs_a_session_and_an_adult_for_flagged
    (s : Store) (req : Request) (freetId : ObjectId) (freet : Freet)
    (Hid : params_freetId req = Some freetId)
    (Hfreet : freets s !! freetId = Some freet) :
  (Js.truthy (session_userId req) = false →
     ∃ r, run_chain FreetRouter.get_one req s = (Returned (Some r), s)
          ∧ status r = 403 ∧ is_error (body r) = true)
  ∧ (∀ user, requester s req = Some user →
       underage user = true → fr_selfFlagged freet = true →
       ∃ r, run_chain FreetRouter.get_one req s = (Returned (Some r), s)
            ∧ status r = 403 ∧ is_error (body r) = true)
  ∧ (∀ user, requester s req = Some user →
       underage user = false ∨ fr_selfFlagged freet = false →
       ∃ message,
         run_chain FreetRouter.get_one req s
           = (Returned (Some (mkResponse 200
                (JObj [("freet", FreetUtil.constructRawFreetResponse s (freetId, freet));
                       ("message", JStr message)]))),
              s)).
Proof.
  unfold FreetRouter.get_one, FreetRouter.get_one_first, FreetRouter.get_one_handler,
    FreetValidator.isFreetExists, UserValidator.isUserLoggedIn,
    UserValidator.isUserAdult, FreetCollection.findOne.
  simpl. run.
  rewrite Hid. simpl. rewrite Hfreet. simpl.
  split; [|split].
  - intros Hfalsy. rewrite Hfalsy. simpl. eauto.
  - intros user [Htruthy Hfound]%requester_session Hunder Hflag.
    rewrite Htruthy. simpl. rewrite Hfreet. simpl. rewrite Hfound, Hflag. simpl.
    rewrite Hunder. simpl. eauto.
  - intros user [Htruthy Hfound]%requester_session Hpass.
    rewrite Htruthy. simpl. rewrite Hfreet. simpl. rewrite Hfound. simpl.
    destruct (fr_selfFlagged freet) eqn:Hflag; simpl.
    + destruct Hpass as [Hadult|]; [|done]. rewrite Hadult. simpl.
      rewrite Hfreet. simpl. rewrite Hflag. eauto.
    + rewrite Hfreet. simpl. rewrite Hflag. eauto.
Qed.

End FreetReading.

Lemma listing_hides_flagged_freets_from_underage_witness :
  requester sample_store (as_user "c1") = Some carol
  ∧ fr_selfFlagged <$> freets sample_store !! "f2" = Some true
  ∧ outcome_of (run_chain (@FreetRouter.get_all sample_runtime) (as_user "c1")) sample_store
    = Returned (Some (mkResponse 200
        (JArr [JObj [("_id", JStr "f1"); ("author", JStr "alice");
                     ("content", JStr "hello"); ("dateCreated", JStr "");
                     ("dateModified", JStr "")]]))).
Proof.
  split; [reflexivity|]. split; [reflexivity|].
  destruct (@listing_hides_flagged_freets_from_underage sample_runtime
              sample_store (as_user "c1") eq_refl) as [Hunderage _].
  destruct (Hunderage carol eq_refl eq_refl) as [Hrun _].
  unfold outcome_of. rewrite Hrun. vm_compute. reflexivity.
Defined.

Lemma single_fetch_needs_a_session_and_an_adult_for_flagged_witness :
  fr_selfFlagged freet2 = true
  ∧ requester sample_store (on_freet "f2" (as_user "c1")) = Some carol
  ∧ (∃ r, run_chain (@FreetRouter.get_one sample_runtime) (on_freet "f2" (as_user "c1"))
            sample_store = (Returned (Some r), sample_store)
          ∧ status r = 403 ∧ is_error (body r) = true)
  ∧ (∃ message,
       run_chain (@FreetRouter.get_one sample_runtime) (on_freet "f2" (as_user "a1"))
         sample_store
       = (Returned (Some (mkResponse 200
            (JObj [("freet", @FreetUtil.constructRawFreetResponse sample_runtime
                               sample_store ("f2", freet2));
                   ("message", JStr message)]))),
          sample_store)).
Proof.
  split; [reflexivity|]. split; [reflexivity|].
  split.
  - destruct (@single_fetch_needs_a_session_and_an_adult_for_flagged sample_runtime
                sample_store (on_freet "f2" (as_user "c1")) "f2" freet2 eq_refl eq_refl)
      as (_ & Hrefused & _).
    apply (Hrefused carol); reflexivity.
  - destruct (@single_fetch_needs_a_session_and_an_adult_for_flagged sample_runtime
                sample_store (on_freet "f2" (as_user "a1")) "f2" freet2 eq_refl eq_refl)
      as (_ & _ & Hanswered).
    apply (Hanswered alice); [reflexivity|by left].
Defined.

(** C2, as stated, fails: the freet [f1] carries no self-flag, and yet a
    request for it without a session is refused with 403. *)
Lemma unflagged_freet_needs_a_session :
  fr_selfFlagged <$> freets sample_store !! "f1" = Some false
  ∧ session_userId (on_freet "f1" no_session) = None
  ∧ (∃ r, outcome_of (run_chain (@FreetRouter.get_one sample_runtime)
                        (on_freet "f1" no_session)) sample_store
          = Returned (Some r)
          ∧ status r = 403 ∧ is_error (body r) = true).
Proof.
  split; [reflexivity|]. split; [reflexivity|].
  eexists. split; [vm_compute; reflexivity|split; reflexivity].
Qed.

(** ** Deleting a freet *)

Section FreetDeletion.

(** [deleteManyByFreetId] leaves no upvote record for the freet. *)
Lemma deleteManyByFreetId_removes_records
    (s : Store) (freetId authorId : ObjectId) (author : User) :
  users s !! authorId = Some author →
  outcome_of (UpvoteCollection.deleteManyByFreetId freetId authorId) s = Returned tt
  ∧ no_upvote_references
      (store_after (UpvoteCollection.deleteManyByFreetId freetId authorId) s) freetId.
Proof.
  intros Ha.
  unfold UpvoteCollection.deleteManyByFreetId, UpvoteCollection.UpvoteModel_deleteMany,
    UserCollection.findOneByUserId, no_upvote_references. run.
  rewrite Ha. simpl. split; [done|].
  intros id up [_ Hkept]%map_lookup_filter_Some Heq. simpl in Hkept.
  by rewrite Heq, String.eqb_refl in Hkept.
Qed.

(** It rewrites the list of the given user and of nobody else. *)
Lemma deleteManyByFreetId_other_lists
    (s : Store) (freetId authorId other : ObjectId) :
  other ≠ authorId →
  users (store_after (UpvoteCollection.deleteManyByFreetId freetId authorId) s) !! other
  = users s !! other.
Proof.
  intros Hne.
  unfold UpvoteCollection.deleteManyByFreetId, UpvoteCollection.UpvoteModel_deleteMany,
    UserCollection.findOneByUserId. run.
  destruct (users s !! authorId); simpl; [|done].
  by rewrite lookup_insert_ne.
Qed.

(** C1 at its failing input: Alice deletes her freet [f1], which Bob had
    upvoted. The request succeeds, the freet and every upvote record for
    it are gone, and Bob's list still holds [f1]. *)
Theorem delete_freet_keeps_it_in_upvoter_list :
  let req := on_freet "f1" (as_user "a1") in
  let s' := store_after (run_chain FreetRouter.delete req) sample_store in
  upvoted_by sample_store "b1" "f1"
  ∧ upvotedFreets <$> users sample_store !! "b1" = Some ["f1"]
  ∧ outcome_of (run_chain FreetRouter.delete req) sample_store
    = Returned (Some (mkResponse 200
        (JObj [("message", JStr "Your freet was deleted successfully.")])))
  ∧ freets s' !! "f1" = None
  ∧ no_upvote_references s' "f1"
  ∧ upvotedFreets <$> users s' !! "b1" = Some ["f1"]
  ∧ ¬ scrubbed_from_lists s' "f1".
Proof.
  intros req s'.
  split; [by exists "u1", upvote1|].
  split; [reflexivity|]. split; [reflexivity|]. split; [reflexivity|].
  assert (Hbob : users s' !! "b1" = Some bob) by reflexivity.
  split; [|split].
  - intros id up Hup. assert (Hempty : upvotes s' = ∅) by reflexivity.
    rewrite Hempty in Hup. by apply lookup_empty_Some in Hup.
  - by rewrite Hbob.
  - intros Hscrubbed. apply (Hscrubbed "b1" bob Hbob).
    by apply list_elem_of_singleton.
Qed.

End FreetDeletion.

(** ** Upvoting twice *)

Section Upvoting.
Context `{Runtime}.


(** C4: when a [POST /upvotes/:freetId] has created an upvote, the
    user's list has been extended with the freet, and the same request
    sent again is refused with 409 by the check of that list; the store
    is left as it was, so no second record is made. *)
Theorem second_upvote_is_a_conflict
    (s s1 : Store) (req : Request) (oid oid' : ObjectId) (date date' : Date)
    (r1 : Response)
    (Hfirst : run_chain (UpvoteRouter.post oid date) req s = (Returned (Some r1), s1))
    (Hcreated : status r1 = 201) :
  ∃ userId freetId before,
    session_userId req = Some userId ∧ params_freetId req = Some freetId
    ∧ users s !! userId = Some before
    ∧ upvotes s1 = <[oid := mkUpvote freetId userId date]> (upvotes s)
    ∧ upvotedFreets <$> users s1 !! userId = Some (upvotedFreets before ++ [freetId])
    ∧ run_chain (UpvoteRouter.post oid' date') req s1
      = (Returned (Some (mkResponse 409
           (JObj [("error",
              JObj [("upvoteAlreadyExists",
                JStr "User has already upvoted this Freet.")])]))),
         s1).
Proof.
  unfold_post.
  destruct (session_userId req) as [userId|] eqn:Hsession; simpl in *;
    [|injection Hfirst as <- <-; discriminate Hcreated].
  destruct (negb (userId =? "")%string) eqn:Htruthy; simpl in *;
    [|injection Hfirst as <- <-; discriminate Hcreated].
  destruct (params_freetId req) as [freetId|] eqn:Hparam; simpl in *;
    [|injection Hfirst as <- <-; discriminate Hcreated].
  destruct (freets s !! freetId) as [freet|] eqn:Hfreet; simpl in *;
    [|injection Hfirst as <- <-; discriminate Hcreated].
  destruct (users s !! userId) as [before|] eqn:Huser; simpl in *;
    [|discriminate Hfirst].
  destruct (Js.includes (upvotedFreets before) freetId) eqn:Hincl; simpl in *;
    [injection Hfirst as <- <-; discriminate Hcreated|].
  rewrite Huser in Hfirst. simpl in Hfirst.
  rewrite lookup_insert_eq in Hfirst. simpl in Hfirst.
  injection Hfirst as <- <-.
  exists userId, freetId, before. simpl.
  rewrite Hfreet. repeat (rewrite lookup_insert_eq; simpl).
  assert (Hnow : Js.includes (Js.push (upvotedFreets before) freetId) freetId = true).
  { apply includes_elem_of. unfold Js.push. apply elem_of_app. right.
    by apply list_elem_of_singleton. }
  rewrite Hnow. done.
Qed.

End Upvoting.

Lemma second_upvote_is_a_conflict_witness :
  ∃ s1,
    outcome_of (run_chain (@UpvoteRouter.post sample_runtime "u2" day0)
                  (on_freet "f1" (as_user "a1"))) sample_store
    = Returned (Some (mkResponse 201
        (JObj [("message", JStr "You have upvoted this freet successfully.");
               ("upvote", JObj [("_id", JStr "u2"); ("freetId", JStr "f1");
                                ("dateCreated", JStr ""); ("author", JStr "alice")])])))
    ∧ run_chain (@UpvoteRouter.post sample_runtime "u3" day0)
        (on_freet "f1" (as_user "a1")) s1
      = (Returned (Some (mkResponse 409
           (JObj [("error",
              JObj [("upvoteAlreadyExists",
                JStr "User has already upvoted this Freet.")])]))),
         s1).
Proof.
  eexists. split; [vm_compute; reflexivity|].
  destruct (@second_upvote_is_a_conflict sample_runtime sample_store _
              (on_freet "f1" (as_user "a1")) "u2" "u3" day0 day0 _ eq_refl eq_refl)
    as (userId & freetId & before & _ & _ & _ & _ & _ & Hsecond).
  exact Hsecond.
Defined.

(** ** Creating a freet *)

Section FreetCreation.
Context `{Runtime}.

(** C6: a [POST /freets] with a session is answered according to the
    length [n] of its trimmed content: 201 exactly when [1 <= n <= 280],
    and then the freet is stored with the content as submitted; 400 when
    [n = 0] (empty or blank) and 413 when [n > 280], the store being
    left as it was. *)
Theorem freet_creation_depends_on_trimmed_length
    (s : Store) (req : Request) (oid : ObjectId) (date : Date)
    (userId content : string)
    (Hsession : session_userId req = Some userId)
    (Hlogged : Js.truthy (session_userId req) = true)
    (Hcontent : body_get (req_body req) "content" = Some content) :
  let n := String.length (Js.trim content) in
  let s' := store_after (run_chain (FreetRouter.post oid date) req) s in
  ∃ r, outcome_of (run_chain (FreetRouter.post oid date) req) s = Returned (Some r)
       ∧ (status r = 201 ↔ (1 ≤ n ≤ 280)%nat)
       ∧ ((1 ≤ n ≤ 280)%nat →
            is_message_entity (body r) = true
            ∧ ∃ freet, freets s' !! oid = Some freet
                       ∧ fr_content freet = content ∧ fr_authorId freet = userId)
       ∧ (n = 0%nat → status r = 400 ∧ is_error (body r) = true ∧ s' = s)
       ∧ ((280 < n)%nat → status r = 413 ∧ is_error (body r) = true ∧ s' = s).
Proof.
  intros n s'. subst s'.
  unfold FreetRouter.post, FreetRouter.post_handler, UserValidator.isUserLoggedIn,
    FreetValidator.isValidFreetContent, FreetCollection.addOne.
  simpl. run.
  rewrite Hlogged. simpl. rewrite Hcontent. simpl.
  case_bool_decide as Hblank.
  - assert (n = 0%nat) as Hn by (subst n; by rewrite Hblank).
    simpl. eexists. split; [reflexivity|]. simpl.
    repeat split; try done; lia.
  - assert (n ≠ 0%nat) as Hn.
    { subst n. destruct (Js.trim content); [done|simpl; lia]. }
    destruct (Z.ltb_spec 280 (Z.of_nat (String.length (Js.trim content)))) as [Hlong|Hfits];
      fold n in Hlong || fold n in Hfits.
    + simpl. eexists. split; [reflexivity|]. simpl.
      repeat split; try done; lia.
    + simpl.
      eexists. split; [reflexivity|]. simpl.
      split; [split; [lia|done]|].
      split; [|split; intros; lia].
      intros _. split; [done|].
      rewrite lookup_insert_eq. eexists. split; [reflexivity|]. simpl.
      by rewrite Hsession.
Qed.

End FreetCreation.

Lemma freet_creation_depends_on_trimmed_length_witness :
  String.length (Js.trim "  hi  ") = 2%nat
  ∧ ∃ r, outcome_of (run_chain (@FreetRouter.post sample_runtime "f3" day0)
                       (with_body [("content", "  hi  "); ("flag", "sensitive")] (as_user "b1")))
           sample_store = Returned (Some r)
         ∧ status r = 201.
Proof.
  split; [reflexivity|].
  destruct (@freet_creation_depends_on_trimmed_length sample_runtime sample_store
              (with_body [("content", "  hi  "); ("flag", "sensitive")] (as_user "b1"))
              "f3" day0 "b1" "  hi  " eq_refl eq_refl eq_refl)
    as (r & Hrun & Hstatus & _).
  exists r. split; [exact Hrun|].
  apply Hstatus. vm_compute. split; apply le_n_S, le_0_n || (repeat constructor).
Defined.

(** ** Response envelopes *)

Section Envelopes.
Context `{Runtime}.


Lemma refusal_shape_ok (e : Endpoint) (r : Response) :
  refusal r → shape_ok e r = true.
Proof.
  intros [Hstatus Hbody]. unfold shape_ok.
  destruct (Z.ltb_spec (status r) 400); [lia|done].
Qed.

Lemma sends_weaken (P Q : Response → Prop) (h : Middleware) :
  (∀ r, P r → Q r) → sends P h → sends Q h.
Proof. intros HPQ Hh req s r s' Hrun. eapply HPQ, Hh, Hrun. Qed.

(** What a chain sends was sent by one of its handlers. *)
Lemma run_chain_sends (P : Response → Prop) (chain : list Middleware) :
  Forall (sends P) chain →
  ∀ req s r s', run_chain chain req s = (Returned (Some r), s') → P r.
Proof.
  induction 1 as [|h chain Hh _ IH]; intros req s r s' Hrun; simpl in Hrun; run.
  - discriminate Hrun.
  - destruct (h req s) as [[[]|] s1] eqn:Hstep; simpl in Hrun.
    + by eapply IH.
    + injection Hrun as <- <-. by eapply Hh.
    + discriminate Hrun.
    + discriminate Hrun.
Qed.


Lemma isUserLoggedIn_refuses : sends refusal UserValidator.isUserLoggedIn.
Proof. unfold UserValidator.isUserLoggedIn. handler. by split. Qed.

Lemma isUserAdult_refuses : sends refusal UserValidator.isUserAdult.
Proof. unfold UserValidator.isUserAdult. handler; by split. Qed.

Lemma isAuthorExists_refuses : sends refusal UserValidator.isAuthorExists.
Proof. unfold UserValidator.isAuthorExists. handler; by split. Qed.

Lemma isFreetExists_refuses : sends refusal FreetValidator.isFreetExists.
Proof. unfold FreetValidator.isFreetExists. handler; by split. Qed.

Lemma isValidFreetContent_refuses : sends refusal FreetValidator.isValidFreetContent.
Proof. unfold FreetValidator.isValidFreetContent. handler; by split. Qed.

Lemma isValidFreetModifier_refuses : sends refusal FreetValidator.isValidFreetModifier.
Proof. unfold FreetValidator.isValidFreetModifier. handler; by split. Qed.

Lemma isUpvoteExists_refuses : sends refusal UpvoteValidator.isUpvoteExists.
Proof. unfold UpvoteValidator.isUpvoteExists. handler; by split. Qed.

Lemma isFreetUpvotedbyUser_refuses : sends refusal UpvoteValidator.isFreetUpvotedbyUser.
Proof. unfold UpvoteValidator.isFreetUpvotedbyUser. handler; by split. Qed.

Lemma isValidUpvoteModifier_refuses : sends refusal UpvoteValidator.isValidUpvoteModifier.
Proof. unfold UpvoteValidator.isValidUpvoteModifier. handler; by split. Qed.

(** The handlers that answer a request, each with its shape. *)
Lemma freets_get_all_handler_shape :
  sends (fun r => shape_ok GET_freets r = true) FreetRouter.get_all_handler.
Proof. unfold FreetRouter.get_all_handler. handler; done. Qed.

Lemma freets_get_by_author_handler_shape :
  sends (fun r => shape_ok GET_freets r = true) FreetRouter.get_by_author_handler.
Proof.
  unfold FreetRouter.get_by_author_handler, FreetCollection.findAllByUsername.
  handler; done.
Qed.

Lemma freets_get_one_first_shape (P : Response → Prop) :
  sends P FreetRouter.get_one_first.
Proof. unfold FreetRouter.get_one_first. handler. Qed.

Lemma freets_get_one_handler_shape :
  sends (fun r => shape_ok GET_freets_id r = true) FreetRouter.get_one_handler.
Proof. unfold FreetRouter.get_one_handler. handler; done. Qed.

Lemma freets_post_handler_shape (oid : ObjectId) (date : Date) :
  sends (fun r => shape_ok POST_freets r = true) (FreetRouter.post_handler oid date).
Proof. unfold FreetRouter.post_handler, FreetCollection.addOne. handler; done. Qed.

Lemma freets_delete_handler_shape :
  sends (fun r => shape_ok DELETE_freets_id r = true) FreetRouter.delete_handler.
Proof.
  unfold FreetRouter.delete_handler, FreetCollection.deleteOne,
    UpvoteCollection.deleteManyByFreetId, UpvoteCollection.UpvoteModel_deleteMany.
  handler; done.
Qed.

Lemma upvotes_get_all_handler_shape :
  sends (fun r => shape_ok GET_upvotes r = true) UpvoteRouter.get_all_handler.
Proof. unfold UpvoteRouter.get_all_handler. handler; done. Qed.

Lemma upvotes_get_by_author_handler_shape :
  sends (fun r => shape_ok GET_upvotes r = true) UpvoteRouter.get_by_author_handler.
Proof.
  unfold UpvoteRouter.get_by_author_handler, UpvoteCollection.findAllByUsername.
  handler; done.
Qed.

Lemma upvotes_post_handler_shape (oid : ObjectId) (date : Date) :
  sends (fun r => shape_ok POST_upvotes_freetId r = true) (UpvoteRouter.post_handler oid date).
Proof.
  unfold UpvoteRouter.post_handler, UpvoteCollection.addOne.
  handler; done.
Qed.

Lemma upvotes_delete_handler_shape :
  sends (fun r => shape_ok DELETE_upvotes_id r = true) UpvoteRouter.delete_handler.
Proof.
  unfold UpvoteRouter.delete_handler, UpvoteCollection.deleteOne,
    UpvoteCollection.UpvoteModel_deleteOne.
  handler; done.
Qed.

Lemma guard_shape_ok (e : Endpoint) (h : Middleware) :
  sends refusal h → sends (fun r => shape_ok e r = true) h.
Proof. apply sends_weaken. intros r. apply refusal_shape_ok. Qed.

Create HintDb envelopes.
#[local] Hint Resolve isUserLoggedIn_refuses isUserAdult_refuses isAuthorExists_refuses
  isFreetExists_refuses isValidFreetContent_refuses isValidFreetModifier_refuses
  isUpvoteExists_refuses isFreetUpvotedbyUser_refuses isValidUpvoteModifier_refuses
  freets_get_all_handler_shape freets_get_by_author_handler_shape
  freets_get_one_first_shape freets_get_one_handler_shape freets_post_handler_shape
  freets_delete_handler_shape upvotes_get_all_handler_shape
  upvotes_get_by_author_handler_shape upvotes_post_handler_shape
  upvotes_delete_handler_shape guard_shape_ok : envelopes.

(** C7, as amended: whatever an endpoint answers, a refusal (status 400
    and up) has an [{error}] body, and a success has the body of its
    endpoint: [{message, <entity>}] for the two creations and the single
    fetch, [{message}] alone for the two deletions, and a bare array for
    the listings [GET /freets] and [GET /upvotes], with or without an
    author. *)
Theorem responses_follow_the_shape_of_their_endpoint
    (e : Endpoint) (oid : ObjectId) (date : Date) (req : Request) (s s' : Store)
    (r : Response)
    (Hrun : run_chain (route e oid date) req s = (Returned (Some r), s')) :
  shape_ok e r = true.
Proof.
  revert Hrun.
  apply (run_chain_sends (fun r => shape_ok e r = true)).
  destruct e; simpl;
    unfold FreetRouter.get_all, FreetRouter.get_one, FreetRouter.post, FreetRouter.delete,
      UpvoteRouter.get_all, UpvoteRouter.post, UpvoteRouter.delete;
    repeat apply Forall_cons_2; try apply Forall_nil_2; auto with envelopes.
Qed.

End Envelopes.

Lemma responses_follow_the_shape_of_their_endpoint_witness :
  ∃ r, outcome_of (run_chain (@route sample_runtime DELETE_upvotes_id "u2" day0)
                     (on_upvote "u1" (as_user "a1"))) sample_store
       = Returned (Some r)
       ∧ status r = 400 ∧ shape_ok DELETE_upvotes_id r = true.
Proof.
  eexists. split; [vm_compute; reflexivity|]. split; [reflexivity|].
  eapply (@responses_follow_the_shape_of_their_endpoint sample_runtime
            DELETE_upvotes_id "u2" day0 (on_upvote "u1" (as_user "a1")) sample_store).
  vm_compute. reflexivity.
Defined.

(** C7, as stated, fails: the listings answer with a bare array, not with
    an object holding a message and an entity, and a deletion answers with
    a message and no entity. *)
Lemma listings_answer_with_bare_arrays :
  outcome_of (run_chain (@route sample_runtime GET_upvotes "u2" day0) no_session) sample_store
  = Returned (Some (mkResponse 200
      (JArr [JObj [("_id", JStr "u1"); ("freetId", JStr "f1");
                   ("dateCreated", JStr ""); ("author", JStr "bob")]])))
  ∧ is_message_entity
      (JArr [JObj [("_id", JStr "u1"); ("freetId", JStr "f1");
                   ("dateCreated", JStr ""); ("author", JStr "bob")]]) = false
  ∧ (∃ items,
       outcome_of (run_chain (@route sample_runtime GET_freets "u2" day0) no_session) sample_store
       = Returned (Some (mkResponse 200 (JArr items)))
       ∧ is_message_entity (JArr items) = false)
  ∧ outcome_of (run_chain (@route sample_runtime DELETE_upvotes_id "u2" day0)
                  (on_upvote "u1" (as_user "b1"))) sample_store
    = Returned (Some (mkResponse 200
        (JObj [("message", JStr "Your upvote was deleted successfully.")])))
  ∧ is_message_entity
      (JObj [("message", JStr "Your upvote was deleted successfully.")]) = false.
Proof.
  split; [vm_compute; reflexivity|]. split; [reflexivity|].
  split; [eexists; split; [vm_compute; reflexivity|reflexivity]|].
  split; [vm_compute; reflexivity|reflexivity].
Qed.

(** * Further properties of the code *)

(** ** Users: the boundary of the age gate, updates and lookups *)

Section UserEdges.
Context `{Runtime}.

(** The flag stored by [UserCollection.addOne] is set exactly when the
    account is created before the eighteenth birthday, comparing year,
    month and day in this order: on the birthday itself it is clear. *)
Theorem underage_iff_before_eighteenth_birthday
    (s : Store) (name pw : string) (bday : Date) (oid : ObjectId) (now today : Date) :
  ∃ created,
    outcome_of (UserCollection.addOne name pw bday oid now today) s = Returned (oid, created)
    ∧ (underage created = true ↔ before_eighteenth_birthday today bday).
Proof.
  eexists. split; [reflexivity|]. simpl.
  rewrite Z.ltb_lt, calculateAge_spec.
  unfold age_at_creation, before_eighteenth_birthday.
  destruct (decide (before_birthday today bday)) as [Hb|Hb].
  - split; [intros Hage|intros [?|[? _]]; lia].
    destruct (decide (getFullYear today < getFullYear bday + 18)); [by left|right].
    split; [lia|done].
  - split; [intros Hage; left; lia|].
    intros [Hyear|[_ Hbefore]]; [lia|done].
Qed.

(** [UserCollection.updateOne] throws on an unknown user without writing,
    and a detail that is absent or the empty string changes nothing: with
    no other detail the stored user is returned and the store is as
    before. *)
Theorem updateOne_unknown_user_or_empty_details
    (s : Store) (userId : ObjectId) (details : UserCollection.UserDetails) :
  (users s !! userId = None →
     UserCollection.updateOne userId details s = (Threw, s))
  ∧ (∀ user, users s !! userId = Some user →
       Js.truthy (UserCollection.ud_password details) = false →
       Js.truthy (UserCollection.ud_username details) = false →
       UserCollection.updateOne userId details s = (Returned user, s)).
Proof.
  unfold UserCollection.updateOne, UserCollection.findOneByUserId. run.
  split.
  - intros Hnone. rewrite Hnone. reflexivity.
  - intros user Huser Hpw Hname. rewrite Huser. simpl. rewrite Hpw, Hname. f_equal.
    destruct s as [us fs ups]. unfold set_users. simpl in *. f_equal.
    by apply insert_id.
Qed.

Lemma head_filter_hit {A : Type} (P : A → Prop) `{!∀ x, Decision (P x)} (l : list A) (x : A) :
  head (filter P l) = Some x → P x ∧ x ∈ l.
Proof. intros Hhead%head_Some_elem_of. by apply list_elem_of_filter in Hhead. Qed.

Lemma head_filter_miss {A : Type} (P : A → Prop) `{!∀ x, Decision (P x)} (l : list A) :
  head (filter P l) = None ↔ ∀ x, x ∈ l → ¬ P x.
Proof.
  rewrite head_None. split.
  - intros Hnil x Hx HP. by eapply filter_nil_not_elem_of.
  - intros Hnone. induction l as [|y l IH]; [done|].
    rewrite filter_cons_False by (apply Hnone; left).
    apply IH. intros x Hx. apply Hnone. by right.
Qed.

(** Whenever the lookup by name and password returns a user, that user
    is stored and has the given password, character for character, and
    the lookup by the name alone returns a stored user as well, though
    not always the same one; when the lookup by the name alone finds
    nobody, neither does the lookup with the password. *)
Theorem findOneByUsernameAndPassword_checks_the_password
    (s : Store) (name pw : string) :
  (∀ id u, UserCollection.findOneByUsernameAndPassword name pw s = Some (id, u) →
     users s !! id = Some u
     ∧ password u = pw
     ∧ ∃ id' u', UserCollection.findOneByUsername name s = Some (id', u')
                 ∧ users s !! id' = Some u')
  ∧ (UserCollection.findOneByUsername name s = None →
     UserCollection.findOneByUsernameAndPassword name pw s = None).
Proof.
  unfold UserCollection.findOneByUsernameAndPassword, UserCollection.findOneByUsername.
  split.
  - intros id u [[Hname Hpw] Hin]%head_filter_hit. simpl in *.
    apply elem_of_map_to_list in Hin.
    split; [done|]. split; [done|].
    destruct (head (filter _ (map_to_list (users s)))) as [[id' u']|] eqn:Hhead.
    + exists id', u'. split; [done|].
      apply head_filter_hit in Hhead as [_ Hin']. by apply elem_of_map_to_list in Hin'.
    + exfalso. rewrite head_filter_miss in Hhead.
      apply (Hhead (id, u)); [by apply elem_of_map_to_list|done].
  - rewrite !head_filter_miss. intros Hnone kv Hin [Hname _]. by apply (Hnone kv).
Qed.

End UserEdges.

Lemma updateOne_unknown_user_or_empty_details_witness :
  UserCollection.updateOne "z9" (UserCollection.mkUserDetails (Some "x") None) sample_store
    = (Threw, sample_store)
  ∧ UserCollection.updateOne "a1" (UserCollection.mkUserDetails (Some "") None) sample_store
    = (Returned alice, sample_store).
Proof.
  split.
  - apply (updateOne_unknown_user_or_empty_details sample_store "z9"). reflexivity.
  - apply (updateOne_unknown_user_or_empty_details sample_store "a1"); reflexivity.
Defined.

Lemma findOneByUsernameAndPassword_checks_the_password_witness :
  @UserCollection.findOneByUsernameAndPassword sample_runtime " alice " "pw" sample_store
    = Some ("a1", alice)
  ∧ users sample_store !! "a1" = Some alice ∧ password alice = "pw".
Proof.
  split; [vm_compute; reflexivity|].
  destruct (@findOneByUsernameAndPassword_checks_the_password sample_runtime
              sample_store " alice " "pw") as [Hhit _].
  destruct (Hhit "a1" alice) as (Hstored & Hpw & _); [vm_compute; reflexivity|].
  split; assumption.
Defined.

(** ** The upvote collection: unknown authors, cascades and round trips *)

Section UpvoteEdges.

(** With an author that is not stored, [addOne], [deleteOne] and
    [deleteManyByFreetId] throw before their first write: no record is
    added and none is deleted, those of the freet included. *)
Theorem unknown_author_throws_before_any_write
    (s : Store) (freetId authorId oid upvoteId : ObjectId) (date : Date)
    (Hunknown : users s !! authorId = None) :
  UpvoteCollection.addOne freetId authorId oid date s = (Threw, s)
  ∧ UpvoteCollection.deleteOne upvoteId authorId freetId s = (Threw, s)
  ∧ UpvoteCollection.deleteManyByFreetId freetId authorId s = (Threw, s).
Proof. unfold_upvotes. by rewrite Hunknown. Qed.

Lemma unknown_author_throws_before_any_write_witness :
  upvotes sample_store !! "u1" = Some upvote1
  ∧ UpvoteCollection.deleteManyByFreetId "f1" "z9" sample_store = (Threw, sample_store).
Proof.
  split; [reflexivity|].
  apply (unknown_author_throws_before_any_write sample_store "f1" "z9" "u2" "u1" day0).
  reflexivity.
Defined.

(** Once the identifier has passed the cast, [deleteManyByAuthorId]
    removes exactly the records of the author, empties the author's list
    when the author is stored, leaves the other users and the freets
    alone, and keeps the lists in step with the records. *)
Lemma deleteManyByAuthorId_after_the_cast (s : Store) (authorId : ObjectId) :
  let s' := store_after (UpvoteCollection.deleteManyByAuthorId authorId) s in
  outcome_of (UpvoteCollection.deleteManyByAuthorId authorId) s = Returned tt
  ∧ (∀ id up, upvotes s' !! id = Some up
              ↔ upvotes s !! id = Some up ∧ up_authorId up ≠ authorId)
  ∧ (upvotedFreets <$> users s' !! authorId = (fun _ => []) <$> users s !! authorId)
  ∧ (∀ other, other ≠ authorId → users s' !! other = users s !! other)
  ∧ freets s' = freets s
  ∧ (lists_in_sync s → lists_in_sync s').
Proof.
  intros s'. subst s'. unfold_upvotes.
  assert (Hrecords : ∀ id up,
    filter (fun kv : string * Upvote => (up_authorId kv.2 =? authorId)%string = false)
      (upvotes s) !! id = Some up
    ↔ upvotes s !! id = Some up ∧ up_authorId up ≠ authorId).
  { intros id up. rewrite map_lookup_filter_Some. simpl.
    by rewrite String.eqb_neq. }
  destruct (users s !! authorId) as [author|] eqn:Ha; simpl.
  - split; [done|]. split; [exact Hrecords|].
    split; [by rewrite lookup_insert_eq|].
    split; [by intros other Hne; rewrite lookup_insert_ne|]. split; [done|].
    intros Hsync a u Hu g. unfold upvoted_by. simpl in *.
    destruct (decide (a = authorId)) as [->|Hne].
    + rewrite lookup_insert_eq in Hu. injection Hu as <-. simpl. split.
      * by intros ?%elem_of_nil.
      * intros (id & up & [_ Hup]%Hrecords & Hau & _). done.
    + rewrite lookup_insert_ne in Hu by done. rewrite (Hsync _ _ Hu g). split.
      * intros (id & up & Hup & Hau & Hfr). exists id, up.
        split; [apply Hrecords; split; [done|congruence]|done].
      * intros (id & up & [Hup _]%Hrecords & Hau & Hfr). by exists id, up.
  - split; [done|]. split; [exact Hrecords|]. split; [by rewrite ?Ha|].
    split; [done|]. split; [done|].
    intros Hsync a u Hu g. unfold upvoted_by. simpl in *.
    rewrite (Hsync _ _ Hu g). split.
    + intros (id & up & Hup & Hau & Hfr). exists id, up.
      split; [apply Hrecords; split; [done|]|done].
      intros Heq. congruence.
    + intros (id & up & [Hup _]%Hrecords & Hau & Hfr). by exists id, up.
Qed.



End UpvoteEdges.

(** ** Counting: the lists and the records with multiplicities *)

Section Counting.

(** Whether or not the freet is in the author's list, [deleteOne] and
    [deleteManyByFreetId] leave a list that is one shorter (or still
    empty); when the freet is in the list it is its first occurrence that
    goes, the other entries keeping their order. *)
Theorem removal_shortens_the_list_by_one
    (s : Store) (upvoteId authorId freetId : ObjectId) (author : User)
    (Hauthor : users s !! authorId = Some author) :
  ∃ l',
    upvotedFreets <$>
      users (store_after (UpvoteCollection.deleteOne upvoteId authorId freetId) s) !! authorId
    = Some l'
    ∧ upvotedFreets <$>
        users (store_after (UpvoteCollection.deleteManyByFreetId freetId authorId) s) !! authorId
      = Some l'
    ∧ length l' = pred (length (upvotedFreets author))
    ∧ (freetId ∈ upvotedFreets author →
       ∃ l1 l2, upvotedFreets author = l1 ++ freetId :: l2 ∧ (freetId ∉ l1) ∧ l' = l1 ++ l2).
Proof.
  unfold_upvotes. rewrite Hauthor. simpl. rewrite !lookup_insert_eq. simpl.
  eexists. split; [reflexivity|]. split; [reflexivity|].
  destruct (decide (freetId ∈ upvotedFreets author)) as [Hin|Hout].
  - destruct (splice_indexOf_present _ _ Hin) as (l1 & l2 & Hl & Hl1 & ->).
    split; [|by intros _; exists l1, l2].
    rewrite Hl, !length_app. simpl. lia.
  - rewrite (indexOf_absent _ _ Hout), splice_minus_one. split; [|done].
    destruct (decide (upvotedFreets author = [])) as [->|Hne]; [done|].
    by apply removelast_shorter.
Qed.

Lemma removal_shortens_the_list_by_one_witness :
  ∃ l', upvotedFreets <$>
          users (store_after (UpvoteCollection.deleteOne "u1" "b1" "f1") sample_store) !! "b1"
        = Some l'
        ∧ length l' = 0%nat.
Proof.
  destruct (removal_shortens_the_list_by_one sample_store "u1" "b1" "f1" bob eq_refl)
    as (l' & Hone & _ & Hlen & _).
  exists l'. split; [exact Hone|exact Hlen].
Defined.








End Counting.



(** ** The upvote router: the invariants across requests *)

Section UpvoteRoutes.
Context `{Runtime}.

Lemma post_store_cases (s : Store) (req : Request) (oid : ObjectId) (date : Date) :
  store_after (run_chain (UpvoteRouter.post oid date) req) s = s
  ∨ ∃ userId freetId author,
      users s !! userId = Some author ∧ (freetId ∉ upvotedFreets author)
      ∧ store_after (run_chain (UpvoteRouter.post oid date) req) s
        = store_after (UpvoteCollection.addOne freetId userId oid date) s.
Proof.
  unfold_post.
  destruct (session_userId req) as [userId|] eqn:Hsession; simpl; [|by left].
  destruct (negb (userId =? "")%string); simpl; [|by left].
  destruct (params_freetId req) as [freetId|] eqn:Hparam; simpl; [|by left].
  destruct (freets s !! freetId) as [freet|]; simpl; [|by left].
  destruct (users s !! userId) as [author|] eqn:Huser; simpl; [|by left].
  destruct (Js.includes (upvotedFreets author) freetId) eqn:Hincl; simpl; [by left|].
  right. exists userId, freetId, author. split; [done|]. split.
  - intros Hin%includes_elem_of. congruence.
  - rewrite Huser. simpl. repeat (rewrite lookup_insert_eq; simpl). reflexivity.
Qed.

(** Whatever the request and its answer, a [POST /upvotes/:freetId] with
    a fresh record identifier keeps the lists in step with the records
    and keeps every pair of user and freet at one live upvote at most. *)
Theorem post_upvote_keeps_the_invariants
    (s : Store) (req : Request) (oid : ObjectId) (date : Date)
    (Hfresh : upvotes s !! oid = None)
    (Hsync : lists_in_sync s) (Huniq : at_most_one_upvote s) :
  lists_in_sync (store_after (run_chain (UpvoteRouter.post oid date) req) s)
  ∧ at_most_one_upvote (store_after (run_chain (UpvoteRouter.post oid date) req) s).
Proof.
  destruct (post_store_cases s req oid date)
    as [->|(userId & freetId & author & Huser & Hnew & ->)]; [done|].
  split; [by apply addOne_keeps_sync|by eapply addOne_keeps_uniqueness].
Qed.

Lemma delete_chain_run
    (s : Store) (req : Request) (upvoteId : ObjectId) (up : Upvote) (author : User) :
  params_upvoteId req = Some upvoteId → objectIdIsValid upvoteId = true →
  upvotes s !! upvoteId = Some up → users s !! up_authorId up = Some author →
  Js.truthy (session_userId req) = true →
  run_chain UpvoteRouter.delete req s
  = if decide (session_userId req = Some (up_authorId up))
    then (Returned (Some (mkResponse 200
            (JObj [("message", JStr "Your upvote was deleted successfully.")]))),
          store_after
            (UpvoteCollection.deleteOne upvoteId (up_authorId up) (up_freetId up)) s)
    else (Returned (Some (mkResponse 400
            (JObj [("error", JStr "Cannot modify other users' upvotes.")]))),
          s).
Proof.
  intros Hparam Hvalid Hup Hauthor Hlogged.
  unfold_delete.
  repeat (progress (rewrite ?Hlogged, ?Hparam, ?Hvalid, ?Hup, ?Hauthor; simpl)).
  destruct (decide (session_userId req = Some (up_authorId up))) as [Hown|Hother].
  - rewrite bool_decide_eq_false_2 by (by intros []).
    by repeat (progress (rewrite ?Hown, ?Hup, ?Hauthor; simpl)).
  - by rewrite bool_decide_eq_true_2.
Qed.

(** [DELETE /upvotes/:id] for a stored upvote of a stored author, from a
    request with a session: the author's own request is answered with 200
    and removes the upvote with its own freet; a request of anybody else
    is refused with 400 and writes nothing. *)
Theorem delete_upvote_is_for_its_author_only
    (s : Store) (req : Request) (upvoteId : ObjectId) (up : Upvote) (author : User)
    (Hparam : params_upvoteId req = Some upvoteId)
    (Hvalid : objectIdIsValid upvoteId = true)
    (Hup : upvotes s !! upvoteId = Some up)
    (Hauthor : users s !! up_authorId up = Some author)
    (Hlogged : Js.truthy (session_userId req) = true) :
  (session_userId req = Some (up_authorId up) →
     run_chain UpvoteRouter.delete req s
     = (Returned (Some (mkResponse 200
          (JObj [("message", JStr "Your upvote was deleted successfully.")]))),
        store_after
          (UpvoteCollection.deleteOne upvoteId (up_authorId up) (up_freetId up)) s)
     ∧ upvotes (store_after (run_chain UpvoteRouter.delete req) s) !! upvoteId = None)
  ∧ (session_userId req ≠ Some (up_authorId up) →
     run_chain UpvoteRouter.delete req s
     = (Returned (Some (mkResponse 400
          (JObj [("error", JStr "Cannot modify other users' upvotes.")]))),
        s)).
Proof.
  pose proof (delete_chain_run s req upvoteId up author Hparam Hvalid Hup Hauthor Hlogged)
    as Hrun.
  split.
  - intros Hown. rewrite decide_True in Hrun by done. split; [done|].
    unfold store_after at 1. rewrite Hrun. unfold_upvotes. rewrite Hauthor. simpl.
    apply lookup_delete_eq.
  - intros Hother. by rewrite decide_False in Hrun.
Qed.

Lemma delete_store_cases (s : Store) (req : Request) :
  store_after (run_chain UpvoteRouter.delete req) s = s
  ∨ ∃ upvoteId up author,
      upvotes s !! upvoteId = Some up ∧ users s !! up_authorId up = Some author
      ∧ store_after (run_chain UpvoteRouter.delete req) s
        = store_after
            (UpvoteCollection.deleteOne upvoteId (up_authorId up) (up_freetId up)) s.
Proof.
  destruct (Js.truthy (session_userId req)) eqn:Hlogged;
    [|unfold_delete; rewrite Hlogged; by left].
  destruct (params_upvoteId req) as [upvoteId|] eqn:Hparam;
    [|unfold_delete; rewrite Hlogged, Hparam; by left].
  destruct (objectIdIsValid upvoteId) eqn:Hvalid;
    [|unfold_delete; rewrite Hlogged, Hparam; simpl; rewrite Hvalid; by left].
  destruct (upvotes s !! upvoteId) as [up|] eqn:Hup;
    [|unfold_delete;
      repeat (progress (rewrite ?Hlogged, ?Hparam, ?Hvalid, ?Hup; simpl)); by left].
  destruct (users s !! up_authorId up) as [author|] eqn:Hauthor;
    [|unfold_delete;
      repeat (progress (rewrite ?Hlogged, ?Hparam, ?Hvalid, ?Hup, ?Hauthor; simpl));
      by left].
  pose proof (delete_chain_run s req upvoteId up author Hparam Hvalid Hup Hauthor Hlogged)
    as Hrun.
  destruct (decide (session_userId req = Some (up_authorId up))) as [Heq|Hne].
  - right. exists upvoteId, up, author. split; [done|]. split; [done|].
    unfold store_after at 1. by rewrite Hrun.
  - left. unfold store_after. by rewrite Hrun.
Qed.

(** Whatever the request and its answer, a [DELETE /upvotes/:id] keeps
    the lists in step with the records and every pair of user and freet
    at one live upvote at most: the handler takes the freet from the
    stored upvote, and the guard before it lets only the author pass. *)
Theorem delete_upvote_keeps_the_invariants
    (s : Store) (req : Request)
    (Hsync : lists_in_sync s) (Huniq : at_most_one_upvote s) :
  lists_in_sync (store_after (run_chain UpvoteRouter.delete req) s)
  ∧ at_most_one_upvote (store_after (run_chain UpvoteRouter.delete req) s).
Proof.
  destruct (delete_store_cases s req)
    as [->|(upvoteId & up & author & Hup & Hauthor & ->)]; [done|].
  by eapply deleteOne_keeps_sync.
Qed.

End UpvoteRoutes.

Lemma post_upvote_keeps_the_invariants_witness :
  lists_in_sync
    (store_after (run_chain (@UpvoteRouter.post sample_runtime "u2" day0)
                    (on_freet "f2" (as_user "a1"))) sample_store)
  ∧ upvotes (store_after (run_chain (@UpvoteRouter.post sample_runtime "u2" day0)
                            (on_freet "f2" (as_user "a1"))) sample_store) !! "u2"
    = Some (mkUpvote "f2" "a1" day0).
Proof.
  split; [|reflexivity].
  apply (@post_upvote_keeps_the_invariants sample_runtime sample_store
           (on_freet "f2" (as_user "a1")) "u2" day0).
  - reflexivity.
  - apply sample_store_in_sync.
  - apply sample_store_unique.
Defined.

Lemma delete_upvote_is_for_its_author_only_witness :
  run_chain (@UpvoteRouter.delete sample_runtime) (on_upvote "u1" (as_user "a1")) sample_store
  = (Returned (Some (mkResponse 400
       (JObj [("error", JStr "Cannot modify other users' upvotes.")]))),
     sample_store).
Proof.
  apply (@delete_upvote_is_for_its_author_only sample_runtime sample_store
           (on_upvote "u1" (as_user "a1")) "u1" upvote1 bob);
    try reflexivity.
  discriminate.
Defined.

Lemma delete_upvote_keeps_the_invariants_witness :
  at_most_one_upvote
    (store_after (run_chain (@UpvoteRouter.delete sample_runtime)
                    (on_upvote "u1" (as_user "b1"))) sample_store)
  ∧ upvotes (store_after (run_chain (@UpvoteRouter.delete sample_runtime)
                            (on_upvote "u1" (as_user "b1"))) sample_store) !! "u1"
    = None.
Proof.
  split; [|reflexivity].
  apply (@delete_upvote_keeps_the_invariants sample_runtime sample_store
           (on_upvote "u1" (as_user "b1"))).
  - apply sample_store_in_sync.
  - apply sample_store_unique.
Defined.

(** ** Upvotes whose author is gone *)

Section Orphans.
Context `{Runtime}.

Lemma mapM_all {A B : Type} (f : A → option B) (l : list A) (s : Store) :
  (∀ x, x ∈ l → is_Some (f x)) →
  ∃ ys, mapM f l s = (Returned ys, s) ∧ length ys = length l.
Proof.
  induction l as [|x l IH]; intros Hall; simpl; run; [by exists []|].
  destruct (Hall x) as [y Hy]; [left|]. rewrite Hy. simpl.
  destruct IH as (ys & Hys & Hlen); [intros z Hz; apply Hall; by right|].
  rewrite Hys. simpl. exists (y :: ys). simpl. by rewrite Hlen.
Qed.

Lemma mapM_one_throws {A B : Type} (f : A → option B) (l : list A) (s : Store) (x : A) :
  x ∈ l → f x = None → mapM f l s = (Threw, s).
Proof.
  induction l as [|z l IH]; intros Hin Hx; [by apply elem_of_nil in Hin|].
  simpl. run. destruct (f z) as [y|] eqn:Hz; simpl; [|done].
  apply elem_of_cons in Hin as [->|Hin]; [congruence|].
  by rewrite (IH Hin Hx).
Qed.

Lemma findAll_populated (s : Store) (id : ObjectId) (up : Upvote) :
  upvotes s !! id = Some up →
  mkUpvoteDoc id up (users s !! up_authorId up) ∈ UpvoteCollection.findAll s.
Proof.
  intros Hup. unfold UpvoteCollection.findAll.
  apply list_elem_of_fmap. exists (id, up). split; [done|].
  by apply elem_of_map_to_list.
Qed.

(** [GET /upvotes] without an author filter answers with one item for
    each stored upvote when the author of every upvote is stored, and
    throws, sending nothing, as soon as one upvote names an author that is
    not stored. *)
Theorem upvote_listing_needs_every_author
    (s : Store) (req : Request) (Hall : query_author req = None) :
  (authors_stored s →
     ∃ items,
       run_chain UpvoteRouter.get_all req s
       = (Returned (Some (mkResponse 200 (JArr items))), s)
       ∧ length items = size (upvotes s))
  ∧ (∀ id up, upvotes s !! id = Some up → users s !! up_authorId up = None →
       run_chain UpvoteRouter.get_all req s = (Threw, s)).
Proof.
  unfold UpvoteRouter.get_all, UpvoteRouter.get_all_handler. simpl. run.
  rewrite Hall. split.
  - intros Hstored.
    destruct (mapM_all UpvoteUtil.constructUpvoteResponse (UpvoteCollection.findAll s) s)
      as (items & Hitems & Hlen).
    { intros doc ([id up] & -> & Hin%elem_of_map_to_list)%list_elem_of_fmap.
      unfold UpvoteUtil.constructUpvoteResponse, UpvoteCollection.populate,
        UserCollection.findOneByUserId. simpl.
      destruct (Hstored id up Hin) as [author ->]. by eexists. }
    exists items. rewrite Hitems. simpl. split; [done|].
    rewrite Hlen. unfold UpvoteCollection.findAll.
    by rewrite length_fmap, length_map_to_list.
  - intros id up Hup Horphan.
    rewrite (mapM_one_throws _ _ s (mkUpvoteDoc id up (users s !! up_authorId up)));
      [done|by apply findAll_populated|].
    unfold UpvoteUtil.constructUpvoteResponse. simpl. by rewrite Horphan.
Qed.

(** An upvote whose author is not stored cannot be removed through
    [DELETE /upvotes/:id]: the ownership guard throws on the missing
    author, whoever asks, and nothing is written. *)
Theorem orphaned_upvote_cannot_be_removed
    (s : Store) (req : Request) (upvoteId : ObjectId) (up : Upvote)
    (Hparam : params_upvoteId req = Some upvoteId)
    (Hvalid : objectIdIsValid upvoteId = true)
    (Hup : upvotes s !! upvoteId = Some up)
    (Horphan : users s !! up_authorId up = None)
    (Hlogged : Js.truthy (session_userId req) = true) :
  run_chain UpvoteRouter.delete req s = (Threw, s).
Proof.
  unfold_delete.
  by repeat (progress (rewrite ?Hlogged, ?Hparam, ?Hvalid, ?Hup, ?Horphan; simpl)).
Qed.

(** Removing a user with [UserCollection.deleteOne] alone leaves that
    user's upvotes behind with no stored author, while removing the
    upvotes first with [deleteManyByAuthorId] keeps every remaining upvote
    with a stored author. *)
Theorem user_removal_needs_the_cascade
    (s : Store) (userId : ObjectId) (Hstored : authors_stored s) :
  authors_stored
    (store_after (UserCollection.deleteOne userId)
       (store_after (UpvoteCollection.deleteManyByAuthorId userId) s))
  ∧ (∀ id up, upvotes s !! id = Some up → up_authorId up = userId →
       upvotes (store_after (UserCollection.deleteOne userId) s) !! id = Some up
       ∧ users (store_after (UserCollection.deleteOne userId) s) !! up_authorId up = None).
Proof.
  unfold UserCollection.deleteOne, UserCollection.UserModel_deleteOne. unfold_upvotes.
  split.
  - intros id up Hup. simpl in *.
    assert (Hkept : upvotes s !! id = Some up ∧ up_authorId up ≠ userId).
    { destruct (users s !! userId); simpl in *;
        apply map_lookup_filter_Some in Hup as [Hup Hne]; simpl in Hne;
        by rewrite String.eqb_neq in Hne. }
    destruct Hkept as [Hup' Hne]. destruct (Hstored id up Hup') as [author Hauthor].
    exists author.
    destruct (users s !! userId); simpl;
      rewrite lookup_delete_ne by done; [by rewrite lookup_insert_ne|done].
  - intros id up Hup <-. simpl. split; [done|]. apply lookup_delete_eq.
Qed.

End Orphans.

Lemma upvote_listing_needs_every_author_witness :
  ∃ items,
    run_chain (@UpvoteRouter.get_all sample_runtime) no_session sample_store
    = (Returned (Some (mkResponse 200 (JArr items))), sample_store)
    ∧ length items = 1%nat.
Proof.
  destruct (@upvote_listing_needs_every_author sample_runtime sample_store no_session eq_refl)
    as [Hanswer _].
  apply Hanswer. intros id up Hup. simpl in Hup.
  apply lookup_singleton_Some in Hup as [<- <-]. by exists bob.
Defined.

Lemma orphaned_upvote_cannot_be_removed_witness :
  run_chain (@UpvoteRouter.delete sample_runtime) (on_upvote "u1" (as_user "b1"))
    (store_after (UserCollection.deleteOne "b1") sample_store)
  = (Threw, store_after (UserCollection.deleteOne "b1") sample_store).
Proof.
  apply (@orphaned_upvote_cannot_be_removed sample_runtime
           (store_after (UserCollection.deleteOne "b1") sample_store)
           (on_upvote "u1" (as_user "b1")) "u1" upvote1); reflexivity.
Defined.

Lemma user_removal_needs_the_cascade_witness :
  upvotes (store_after (UserCollection.deleteOne "b1") sample_store) !! "u1" = Some upvote1
  ∧ users (store_after (UserCollection.deleteOne "b1") sample_store) !! "b1" = None.
Proof.
  destruct (user_removal_needs_the_cascade sample_store "b1") as [_ Halone].
  - intros id up Hup. simpl in Hup.
    apply lookup_singleton_Some in Hup as [<- <-]. by exists bob.
  - apply (Halone "u1" upvote1); reflexivity.
Defined.

(** ** Listing by author, and the routes that are never reached *)

Section Listings.
Context `{Runtime}.

(** [UpvoteCollection.findAllByUsername] throws when no stored user
    matches the name; otherwise it returns exactly the stored upvotes of
    the user found, each with that user as its author, and writes
    nothing. *)
Theorem findAllByUsername_lists_the_found_author (s : Store) (name : string) :
  (UserCollection.findOneByUsername name s = None →
     UpvoteCollection.findAllByUsername name s = (Threw, s))
  ∧ (∀ id u, UserCollection.findOneByUsername name s = Some (id, u) →
       ∃ docs,
         UpvoteCollection.findAllByUsername name s = (Returned docs, s)
         ∧ ∀ d, d ∈ docs
                ↔ upvotes s !! doc_id d = Some (doc_upvote d)
                  ∧ up_authorId (doc_upvote d) = id ∧ doc_author d = Some u).
Proof.
  unfold UpvoteCollection.findAllByUsername. run. split.
  - intros Hnone. by rewrite Hnone.
  - intros id u Hfound. rewrite Hfound. simpl. eexists. split; [reflexivity|].
    assert (Hu : users s !! id = Some u).
    { unfold UserCollection.findOneByUsername in Hfound.
      apply head_filter_hit in Hfound as [_ Hin]. by apply elem_of_map_to_list in Hin. }
    intros d. rewrite list_elem_of_fmap. split.
    + intros ([k up] & -> & [Hau Hin%elem_of_map_to_list]%list_elem_of_filter).
      unfold UpvoteCollection.populate, UserCollection.findOneByUserId. simpl in *.
      by rewrite Hau, Hu.
    + intros (Hup & Hau & Hauthor). exists (doc_id d, doc_upvote d). split.
      * unfold UpvoteCollection.populate, UserCollection.findOneByUserId. simpl.
        destruct d as [k up a]. simpl in *. by rewrite Hau, Hu, Hauthor.
      * apply list_elem_of_filter. split; [done|]. by apply elem_of_map_to_list.
Qed.

Lemma run_route_chain (chain : list Middleware) (req : Request) (s : Store) :
  run_chain chain req s
  = match run_route chain req s with
    | (Returned (Answered r), s') => (Returned (Some r), s')
    | (Returned _, s') => (Returned None, s')
    | (Threw, s') => (Threw, s')
    end.
Proof.
  revert s. induction chain as [|h chain IH]; intros s; simpl; run; [done|].
  destruct (h req s) as [[[]|] s1]; simpl; [apply IH|done..].
Qed.

Lemma dispatch_first (chain : list Middleware) (rest : list (list Middleware))
    (req : Request) (s : Store) :
  outcome_of (run_route chain req) s ≠ Returned PassedOn →
  dispatch (chain :: rest) req s = run_route chain req s.
Proof.
  simpl. run. destruct (run_route chain req s) as [[[]|] s1]; simpl; done.
Qed.

Lemma upvotes_get_all_answers (req : Request) (s : Store) :
  outcome_of (run_route UpvoteRouter.get_all req) s ≠ Returned PassedOn.
Proof.
  unfold UpvoteRouter.get_all, UpvoteRouter.get_all_handler,
    UpvoteRouter.get_by_author_handler, UserValidator.isAuthorExists,
    UpvoteCollection.findAllByUsername.
  simpl. run. destruct_innermost; discriminate.
Qed.

Lemma freets_get_all_answers (req : Request) (s : Store) :
  outcome_of (run_route FreetRouter.get_all req) s ≠ Returned PassedOn.
Proof.
  unfold FreetRouter.get_all, FreetRouter.get_all_handler,
    FreetRouter.get_by_author_handler, UserValidator.isAuthorExists,
    FreetCollection.findAllByUsername.
  simpl. run. destruct_innermost; discriminate.
Qed.

(** The first route registered for [GET /api/upvotes] never passes a
    request on: whatever routes are registered after it (the one filtering
    by freet is), the request ends in the first chain, and what is sent is
    what that chain sends. The same holds for the first route of
    [GET /api/freets]. *)
Theorem first_listing_route_takes_every_request
    (later : list (list Middleware)) (req : Request) (s : Store) :
  dispatch (UpvoteRouter.get_all :: later) req s = run_route UpvoteRouter.get_all req s
  ∧ dispatch (FreetRouter.get_all :: later) req s = run_route FreetRouter.get_all req s
  ∧ (∀ r s', dispatch (UpvoteRouter.get_all :: later) req s = (Returned (Answered r), s')
             ↔ run_chain UpvoteRouter.get_all req s = (Returned (Some r), s'))
  ∧ (∀ r s', dispatch (FreetRouter.get_all :: later) req s = (Returned (Answered r), s')
             ↔ run_chain FreetRouter.get_all req s = (Returned (Some r), s')).
Proof.
  assert (Hup := dispatch_first UpvoteRouter.get_all later req s
                   (upvotes_get_all_answers req s)).
  assert (Hfr := dispatch_first FreetRouter.get_all later req s
                   (freets_get_all_answers req s)).
  split; [done|]. split; [done|]. split; intros r s'.
  - rewrite Hup, run_route_chain.
    destruct (run_route UpvoteRouter.get_all req s) as [[[]|] s1];
      split; intros Heq; by simplify_eq.
  - rewrite Hfr, run_route_chain.
    destruct (run_route FreetRouter.get_all req s) as [[[]|] s1];
      split; intros Heq; by simplify_eq.
Qed.

End Listings.

Lemma findAllByUsername_lists_the_found_author_witness :
  ∃ docs,
    @UpvoteCollection.findAllByUsername sample_runtime "bob" sample_store
    = (Returned docs, sample_store)
    ∧ mkUpvoteDoc "u1" upvote1 (Some bob) ∈ docs.
Proof.
  destruct (@findAllByUsername_lists_the_found_author sample_runtime sample_store "bob")
    as [_ Hfound].
  destruct (Hfound "b1" bob) as (docs & Hrun & Hdocs); [vm_compute; reflexivity|].
  exists docs. split; [exact Hrun|]. apply Hdocs. simpl. repeat split; reflexivity.
Defined.

Section AuthorCascade.
Context `{Runtime}.

Lemma deleteManyByAuthorId_cast_agrees (s : Store) (authorId : ObjectId) :
  objectIdIsValid authorId = true →
  WithCast.UpvoteCollection_deleteManyByAuthorId authorId s
  = UpvoteCollection.deleteManyByAuthorId authorId s.
Proof.
  intros Hvalid. unfold UpvoteCollection.deleteManyByAuthorId. unfold_cast.
  rewrite Hvalid. simpl.
  destruct (users s !! authorId) as [author|] eqn:Hauthor; simpl; [|done].
  by rewrite Hauthor.
Qed.

(** [deleteManyByAuthorId] throws on an ill-formed identifier before it
    writes anything. For a well-formed one, stored or not, it returns: it
    removes exactly the records of the author, empties the author's list
    when the author is stored, leaves the other users and the freets
    alone, and keeps the lists in step with the records. *)
Theorem deleteManyByAuthorId_clears_a_well_formed_author (s : Store) (authorId : ObjectId) :
  let s' := store_after (WithCast.UpvoteCollection_deleteManyByAuthorId authorId) s in
  (objectIdIsValid authorId = false →
     WithCast.UpvoteCollection_deleteManyByAuthorId authorId s = (Threw, s))
  ∧ (objectIdIsValid authorId = true →
     outcome_of (WithCast.UpvoteCollection_deleteManyByAuthorId authorId) s = Returned tt
     ∧ (∀ id up, upvotes s' !! id = Some up
                 ↔ upvotes s !! id = Some up ∧ up_authorId up ≠ authorId)
     ∧ (upvotedFreets <$> users s' !! authorId = (fun _ => []) <$> users s !! authorId)
     ∧ (∀ other, other ≠ authorId → users s' !! other = users s !! other)
     ∧ freets s' = freets s
     ∧ (lists_in_sync s → lists_in_sync s')).
Proof.
  intros s'. split.
  - intros Hbad. unfold_cast. by rewrite Hbad.
  - intros Hvalid. subst s'. unfold store_after, outcome_of.
    rewrite (deleteManyByAuthorId_cast_agrees s authorId Hvalid).
    apply (deleteManyByAuthorId_after_the_cast s authorId).
Qed.

End AuthorCascade.

Lemma deleteManyByAuthorId_clears_a_well_formed_author_witness :
  @WithCast.UpvoteCollection_deleteManyByAuthorId strict_runtime "nobody" hex_store
  = (Threw, hex_store)
  ∧ upvotedFreets <$>
      users (store_after (@WithCast.UpvoteCollection_deleteManyByAuthorId strict_runtime
                            hex_alice) hex_store) !! hex_alice
    = Some [].
Proof.
  destruct (@deleteManyByAuthorId_clears_a_well_formed_author strict_runtime hex_store "nobody")
    as [Hbad _].
  destruct (@deleteManyByAuthorId_clears_a_well_formed_author strict_runtime hex_store hex_alice)
    as [_ Hgood].
  split.
  - apply Hbad. reflexivity.
  - destruct Hgood as (_ & _ & Hlist & _); [reflexivity|]. rewrite Hlist. reflexivity.
Defined.

(** ** What the cascade of a freet reaches, the guard of an upvote, and
    the round trip of a user *)

Section Reach.

(** For a stored user, [deleteManyByFreetId] removes every record of the
    freet and no other record, and rewrites the list of that user only:
    any other user who held the freet still holds it. *)
Theorem deleteManyByFreetId_reaches_one_list
    (s : Store) (freetId authorId : ObjectId) (author : User)
    (Hauthor : users s !! authorId = Some author) :
  let s' := store_after (UpvoteCollection.deleteManyByFreetId freetId authorId) s in
  outcome_of (UpvoteCollection.deleteManyByFreetId freetId authorId) s = Returned tt
  ∧ (∀ id up, upvotes s' !! id = Some up
              ↔ upvotes s !! id = Some up ∧ up_freetId up ≠ freetId)
  ∧ (∀ other user, other ≠ authorId → users s !! other = Some user →
       users s' !! other = Some user
       ∧ (freetId ∈ upvotedFreets user → ¬ scrubbed_from_lists s' freetId))
  ∧ freets s' = freets s.
Proof.
  intros s'. subst s'. unfold_upvotes. rewrite Hauthor. simpl.
  split; [done|]. split; [|split; [|done]].
  - intros id up. rewrite map_lookup_filter_Some. simpl. by rewrite String.eqb_neq.
  - intros other user Hne Hother.
    assert (Hkept : <[authorId := mkUser (username author) (password author)
                        (dateJoined author) (birthday author) (underage author)
                        (Js.splice (Js.indexOf (upvotedFreets author) freetId) 1
                           (upvotedFreets author))]> (users s) !! other = Some user)
      by by rewrite lookup_insert_ne.
    split; [done|]. intros Hin Hscrubbed. by apply (Hscrubbed other user Hkept).
Qed.

Lemma deleteManyByFreetId_reaches_one_list_witness :
  users (store_after (UpvoteCollection.deleteManyByFreetId "f1" "a1") sample_store) !! "b1"
  = Some bob
  ∧ ¬ scrubbed_from_lists
        (store_after (UpvoteCollection.deleteManyByFreetId "f1" "a1") sample_store) "f1".
Proof.
  destruct (deleteManyByFreetId_reaches_one_list sample_store "f1" "a1" alice eq_refl)
    as (_ & _ & Hothers & _).
  destruct (Hothers "b1" bob) as [Hkept Hheld]; [discriminate|reflexivity|].
  split; [exact Hkept|]. apply Hheld. simpl. by apply list_elem_of_singleton.
Defined.

(** For a stored requester and a freet in the request, the guard
    [isFreetUpvotedbyUser] refuses with 409 exactly when the freet is in
    the requester's list and passes the request on otherwise; it throws
    when the requester is not stored; in no case does it write. *)
Theorem isFreetUpvotedbyUser_checks_the_list
    (s : Store) (req : Request) (userId freetId : ObjectId)
    (Hsession : session_userId req = Some userId)
    (Hparam : params_freetId req = Some freetId) :
  (users s !! userId = None →
     UpvoteValidator.isFreetUpvotedbyUser req s = (Threw, s))
  ∧ (∀ user, users s !! userId = Some user →
       (freetId ∈ upvotedFreets user →
          ∃ r, UpvoteValidator.isFreetUpvotedbyUser req s = (Returned (Respond r), s)
               ∧ status r = 409 ∧ is_error (body r) = true)
       ∧ (freetId ∉ upvotedFreets user →
          UpvoteValidator.isFreetUpvotedbyUser req s = (Returned Next, s))).
Proof.
  unfold UpvoteValidator.isFreetUpvotedbyUser, UserCollection.findOneByUserId. run.
  rewrite Hsession, Hparam. simpl. split.
  - intros Hnone. by rewrite Hnone.
  - intros user Huser. rewrite Huser. simpl. split.
    + intros Hin%includes_elem_of. rewrite Hin. eauto.
    + intros Hout. destruct (Js.includes (upvotedFreets user) freetId) eqn:Hincl; [|done].
      by apply includes_elem_of in Hincl.
Qed.

Lemma isFreetUpvotedbyUser_checks_the_list_witness :
  UpvoteValidator.isFreetUpvotedbyUser (on_freet "f1" (as_user "a1")) sample_store
  = (Returned Next, sample_store).
Proof.
  destruct (isFreetUpvotedbyUser_checks_the_list sample_store
              (on_freet "f1" (as_user "a1")) "a1" "f1" eq_refl eq_refl) as [_ Hstored].
  destruct (Hstored alice eq_refl) as [_ Hpass].
  apply Hpass. simpl. apply not_elem_of_nil.
Defined.

(** A user created under a fresh identifier is found under it with an
    empty list, leaves the lists in step with the records when no upvote
    names that identifier, and [UserCollection.deleteOne] of it gives the
    store back as it was. *)
Theorem new_user_round_trip
    (s : Store) (name pw : string) (bday : Date) (oid : ObjectId) (now today : Date)
    (Hfresh : users s !! oid = None) :
  ∃ created s1,
    UserCollection.addOne name pw bday oid now today s = (Returned (oid, created), s1)
    ∧ UserCollection.findOneByUserId oid s1 = Some created
    ∧ upvotedFreets created = []
    ∧ (lists_in_sync s → (∀ id up, upvotes s !! id = Some up → up_authorId up ≠ oid) →
       lists_in_sync s1)
    ∧ UserCollection.deleteOne oid s1 = (Returned true, s).
Proof.
  unfold UserCollection.addOne, UserCollection.deleteOne, UserCollection.UserModel_deleteOne,
    UserCollection.findOneByUserId. run.
  do 2 eexists. split; [reflexivity|]. simpl.
  split; [apply lookup_insert_eq|]. split; [done|]. split.
  - intros Hsync Hnone a u Hu g. unfold upvoted_by. simpl in *.
    destruct (decide (a = oid)) as [->|Hne].
    + rewrite lookup_insert_eq in Hu. injection Hu as <-. simpl. split.
      * by intros ?%elem_of_nil.
      * intros (id & up & Hup & Hau & _). by destruct (Hnone id up Hup).
    + rewrite lookup_insert_ne in Hu by done. apply (Hsync _ _ Hu g).
  - f_equal. destruct s as [us fs ups]. unfold set_users. simpl in *. f_equal.
    rewrite delete_insert_eq. by apply delete_id.
Qed.

Lemma new_user_round_trip_witness :
  ∃ created s1,
    UserCollection.addOne "dave" "pw" (mkDate 2000 1 1 0) "d1" day0 day0 sample_store
    = (Returned ("d1", created), s1)
    ∧ UserCollection.deleteOne "d1" s1 = (Returned true, sample_store).
Proof.
  destruct (new_user_round_trip sample_store "dave" "pw" (mkDate 2000 1 1 0) "d1" day0 day0
              eq_refl) as (created & s1 & Hadd & _ & _ & _ & Hdel).
  exists created, s1. split; [exact Hadd|exact Hdel].
Defined.

End Reach.
